(** * Delegated content routing over HTTP: iterators, schema dispatch, client

    A shallow embedding of three Go packages of go-libipfs:
    - [routing/http/types/iter]    (json.go: [SliceIter], [JSONIter]),
    - [routing/http/types/ndjson]  (provider.go: the three schema-dispatching
      iterators),
    - [routing/http/client]        ([New], [FindProviders], [ProvideBitswap]).

    Go methods with a pointer receiver become functions that take the
    receiver's state and return the new state next to the Go results.  The
    collaborators the packages only call (encoding/json, net/http, mime, the
    signing key, the clock) are operations of type classes; some concrete
    instances are given at the end, where the development is run on inputs. *)

From Stdlib Require Import List String Ascii ZArith Arith Bool Lia.
From Stdlib Require Import DecimalString.
Import ListNotations.
Local Open Scope string_scope.
Local Open Scope list_scope.
Local Open Scope nat_scope.

(** ** Go error values *)

Module errors.

(** The error values that occur in these packages.  [Wrap p e] is
    [fmt.Errorf(p ++ "%w", e)]; [New m] is [errors.New(m)] or a
    [fmt.Errorf] without [%w]; [External m] is an error built by a
    collaborator (a JSON syntax error, a transport failure, ...). *)
Inductive error : Type :=
| EOF
| Canceled
| DeadlineExceeded
| New (msg : string)
| Wrap (prefix : string) (e : error)
| External (msg : string).

Definition error_eq_dec (a b : error) : {a = b} + {a <> b}.
Proof. decide equality; apply string_dec. Defined.

(** [errors.Is]: the chain of [err] is walked through [Unwrap]. *)
Fixpoint Is_chain (err target : error) : bool :=
  if error_eq_dec err target then true
  else match err with
       | Wrap _ e => Is_chain e target
       | _ => false
       end.

Definition Is (err : option error) (target : error) : bool :=
  match err with
  | None => false
  | Some e => Is_chain e target
  end.

End errors.
Import errors.

(** ** io.Reader and io.Closer *)

Module io.
Section Readers.
(** [R]: what is still unread behind a reader. *)
Variable R : Type.

(** A reader that is also an [io.Closer]; [closed] counts the calls of
    [Close] it has received. *)
Record ReadCloser : Type := { content : R; closed : nat }.

(** The dynamic type of an [io.Reader] value: with or without [Close]. *)
Inductive Reader : Type :=
| Plain (c : R)
| Closer (rc : ReadCloser).

Definition Close (rc : ReadCloser) : ReadCloser :=
  {| content := content rc; closed := S (closed rc) |}.

Definition closes (r : Reader) : nat :=
  match r with
  | Plain _ => 0
  | Closer rc => closed rc
  end.
End Readers.
Arguments content {R} _.
Arguments closed {R} _.
Arguments Plain {R} _.
Arguments Closer {R} _.
Arguments Close {R} _.
Arguments closes {R} _.
End io.

(** ** context.Context *)

Module context.
(** The only thing the packages ask a context is [Err()]. *)
Record Context : Type := { Err : option error }.

Definition Background : Context := {| Err := None |}.

(** The caller cancels: the first reason sticks. *)
Definition cancel (e : error) (ctx : Context) : Context :=
  match Err ctx with
  | Some _ => ctx
  | None => {| Err := Some e |}
  end.
End context.

(** ** Package iter *)

(** [var val T]: the zero value of a type. *)
Class Zero (T : Type) : Type := zero : T.

(** The three results of [Next() (T, bool, error)]. *)
Definition Result (T : Type) : Type := (T * bool * option error)%type.

(** [iter.Iter[T]]: the pull interface. *)
Class Iter (S T : Type) : Type := Next : S -> Result T * S.

(** What the packages need of [encoding/json]'s streaming decoder [D] over
    a reader: [json.NewDecoder(r)], and [Decode(&val)] at a type [T], which
    returns the contents of [val] afterwards, the error and the decoder's
    new state. *)
Class JSONReader (R D : Type) : Type := NewDecoder : io.Reader R -> D.
Class JSONDecode (D T : Type) : Type :=
  Decode : D -> T -> T * option error * D.

Module iter.

Section SliceIter.
Context {T : Type} `{Zero T}.

(** [SliceIter[T]]; the unused mutex field [m] carries no state. *)
Record SliceIter : Type := { Slice : list T; i : nat }.

Definition FromSlice (s : list T) : SliceIter := {| Slice := s; i := 0 |}.

Definition SliceIter_Next (s : SliceIter) : Result T * SliceIter :=
  let val := zero in
  if List.length (Slice s) <=? i s then ((val, false, None), s)
  else
    let val := nth (i s) (Slice s) val in
    ((val, true, None), {| Slice := Slice s; i := S (i s) |}).
End SliceIter.
Arguments SliceIter T : clear implicits.

Section JSONIter.
Context {R D T : Type} `{Zero T} `{JSONReader R D} `{JSONDecode D T}.

Record JSONIter : Type := {
  Decoder : D;
  Reader : io.Reader R;
  ctx : context.Context;
  done : bool
}.

Definition FromReaderJSON (ctx : context.Context) (r : io.Reader R)
  : JSONIter :=
  {| Decoder := NewDecoder r; Reader := r; ctx := ctx; done := false |}.

(** [j.close()] *)
Definition close (j : JSONIter) : JSONIter :=
  let j := {| Decoder := Decoder j; Reader := Reader j; ctx := ctx j;
              done := true |} in
  match Reader j with
  | io.Closer closer =>
      {| Decoder := Decoder j; Reader := io.Closer (io.Close closer);
         ctx := ctx j; done := done j |}
  | io.Plain _ => j
  end.

Definition JSONIter_Next (j : JSONIter) : Result T * JSONIter :=
  let val := zero in
  if done j then ((val, false, None), j)
  else
    match context.Err (ctx j) with
    | Some ctxErr => ((val, true, Some ctxErr), close j)
    | None =>
        let '(val, err, d) := Decode (Decoder j) val in
        let j := {| Decoder := d; Reader := Reader j; ctx := ctx j;
                    done := done j |} in
        if errors.Is err EOF then ((val, false, None), close j)
        else
          match err with
          | Some e =>
              ((val, true, Some (Wrap "json iterator: " e)), close j)
          | None => ((val, true, err), j)
          end
    end.
End JSONIter.
Arguments JSONIter R D : clear implicits.

End iter.

#[export] Instance SliceIter_Iter {T} `{Zero T} : Iter (iter.SliceIter T) T :=
  iter.SliceIter_Next.

#[export] Instance JSONIter_Iter {R D T} `{Zero T} `{JSONDecode D T}
  : Iter (iter.JSONIter R D) T :=
  iter.JSONIter_Next.

(** ** Package types (declarations used by the sources) *)

Module types.

Definition Duration : Type := Z.   (* time.Duration, nanoseconds *)
Definition Time : Type := Z.
Definition PeerID : Type := string. (* peer.ID *)
Definition Cid : Type := string.    (* a cid.Cid, by its canonical string *)
Definition Multiaddr : Type := string.

(** The untyped envelope: the discriminator and the raw payload. *)
Record UnknownProviderRecord : Type := {
  Protocol : string;
  Schema : string;
  Bytes : list Byte.byte
}.

Record BitswapPayload : Type := {
  Keys : list Cid;
  AdvisoryTTL : option Duration;
  Timestamp : option Time;
  ID : option PeerID;
  Addrs : list Multiaddr
}.

Record WriteBitswapProviderRecord : Type := {
  wProtocol : string;
  wSchema : string;
  wSignature : string;
  wPayload : BitswapPayload
}.

Record WriteBitswapProviderRecordResponse : Type := {
  rAdvisoryTTL : option Duration
}.

(** What the sources use of package [routing/http/types] without
    declaring it: the constant [SchemaBitswap], the record read back for
    it, and [json.Unmarshal] at the three bitswap record types.  They are
    parameters of the development. *)
Class Package : Type := {
  SchemaBitswap : string;
  ReadBitswapProviderRecord : Type;
  ReadBitswapProviderRecord_zero : ReadBitswapProviderRecord;
  Unmarshal_ReadBitswapProviderRecord :
    list Byte.byte -> ReadBitswapProviderRecord ->
    ReadBitswapProviderRecord * option error;
  Unmarshal_WriteBitswapProviderRecord :
    list Byte.byte -> WriteBitswapProviderRecord ->
    WriteBitswapProviderRecord * option error;
  Unmarshal_WriteBitswapProviderRecordResponse :
    list Byte.byte -> WriteBitswapProviderRecordResponse ->
    WriteBitswapProviderRecordResponse * option error
}.

Section Sums.
Context `{Package}.

(** [types.ProviderResponse]: the interface and the pointer types that
    implement it. *)
Inductive ProviderResponse : Type :=
| ReadBitswap (p : ReadBitswapProviderRecord)
| WriteBitswapResponse (p : WriteBitswapProviderRecordResponse)
| UnknownResponse (u : UnknownProviderRecord).

(** [types.WriteProviderRecord] *)
Inductive WriteProviderRecord : Type :=
| WriteBitswap (p : WriteBitswapProviderRecord)
| UnknownWrite (u : UnknownProviderRecord).
End Sums.

End types.
Import types.

#[export] Instance UnknownProviderRecord_Zero : Zero UnknownProviderRecord :=
  {| Protocol := ""; Schema := ""; Bytes := [] |}.

#[export] Instance BitswapPayload_Zero : Zero BitswapPayload :=
  {| Keys := []; AdvisoryTTL := None; Timestamp := None; ID := None;
     Addrs := [] |}.

#[export] Instance WriteBitswapProviderRecord_Zero
  : Zero WriteBitswapProviderRecord :=
  {| wProtocol := ""; wSchema := ""; wSignature := ""; wPayload := zero |}.

#[export] Instance WriteBitswapProviderRecordResponse_Zero
  : Zero WriteBitswapProviderRecordResponse :=
  {| rAdvisoryTTL := None |}.

#[export] Instance ReadBitswapProviderRecord_Zero `{Package}
  : Zero ReadBitswapProviderRecord :=
  ReadBitswapProviderRecord_zero.

(** A nil interface value is [None]. *)
#[export] Instance interface_Zero {A : Type} : Zero (option A) := None.

(** ** Package ndjson *)

Module ndjson.

Section Dispatch.
Context `{Package}.
Context {S : Type} `{Iter S UnknownProviderRecord}.

Record readProvidersResponseIter : Type := { r_iter : S }.

Definition readProvidersResponseIter_Next (p : readProvidersResponseIter)
  : Result (option ProviderResponse) * readProvidersResponseIter :=
  let '((v, ok, err), it) := Next (r_iter p) in
  let p := {| r_iter := it |} in
  if negb ok then ((None, false, None), p)
  else
    match err with
    | Some err => ((None, false, Some err), p)
    | None =>
        if String.eqb (Schema v) SchemaBitswap then
          let prov : ReadBitswapProviderRecord := zero in
          let '(prov, err) :=
            Unmarshal_ReadBitswapProviderRecord (Bytes v) prov in
          match err with
          | Some err => ((None, false, Some err), p)
          | None => ((Some (ReadBitswap prov), true, None), p)
          end
        else ((Some (UnknownResponse v), true, None), p)
    end.

Record writeProvidersRequestIter : Type := { wq_iter : S }.

Definition writeProvidersRequestIter_Next (p : writeProvidersRequestIter)
  : Result (option WriteProviderRecord) * writeProvidersRequestIter :=
  let '((v, ok, err), it) := Next (wq_iter p) in
  let p := {| wq_iter := it |} in
  if negb ok then ((None, false, None), p)
  else
    match err with
    | Some err => ((None, false, Some err), p)
    | None =>
        if String.eqb (Schema v) SchemaBitswap then
          let prov : WriteBitswapProviderRecord := zero in
          let '(prov, err) :=
            Unmarshal_WriteBitswapProviderRecord (Bytes v) prov in
          match err with
          | Some err => ((None, false, Some err), p)
          | None => ((Some (WriteBitswap prov), true, None), p)
          end
        else ((Some (UnknownWrite v), true, None), p)
    end.

Record writeProvidersResponseIter : Type := { wr_iter : S }.

Definition writeProvidersResponseIter_Next
  (p : writeProvidersResponseIter)
  : Result (option ProviderResponse) * writeProvidersResponseIter :=
  let '((v, ok, err), it) := Next (wr_iter p) in
  let p := {| wr_iter := it |} in
  if negb ok then ((None, false, None), p)
  else
    match err with
    | Some err => ((None, false, Some err), p)
    | None =>
        if String.eqb (Schema v) SchemaBitswap then
          let prov : WriteBitswapProviderRecordResponse := zero in
          let '(prov, err) :=
            Unmarshal_WriteBitswapProviderRecordResponse (Bytes v) prov in
          match err with
          | Some err => ((None, false, Some err), p)
          | None => ((Some (WriteBitswapResponse prov), true, None), p)
          end
        else ((Some (UnknownResponse v), true, None), p)
    end.
End Dispatch.
Arguments readProvidersResponseIter S : clear implicits.
Arguments writeProvidersRequestIter S : clear implicits.
Arguments writeProvidersResponseIter S : clear implicits.

Section Constructors.
Context {R D : Type} `{JSONReader R D}.

Definition NewReadProvidersResponseIter (ctx : context.Context)
  (r : io.Reader R) : readProvidersResponseIter (iter.JSONIter R D) :=
  {| r_iter := iter.FromReaderJSON ctx r |}.

Definition NewWriteProvidersRequestIter (ctx : context.Context)
  (r : io.Reader R) : writeProvidersRequestIter (iter.JSONIter R D) :=
  {| wq_iter := iter.FromReaderJSON ctx r |}.

End Constructors.

End ndjson.

#[export] Instance readProvidersResponseIter_Iter `{Package} {S}
  `{Iter S UnknownProviderRecord}
  : Iter (ndjson.readProvidersResponseIter S) (option ProviderResponse) :=
  ndjson.readProvidersResponseIter_Next.

#[export] Instance writeProvidersRequestIter_Iter `{Package} {S}
  `{Iter S UnknownProviderRecord}
  : Iter (ndjson.writeProvidersRequestIter S) (option WriteProviderRecord) :=
  ndjson.writeProvidersRequestIter_Next.

#[export] Instance writeProvidersResponseIter_Iter `{Package} {S}
  `{Iter S UnknownProviderRecord}
  : Iter (ndjson.writeProvidersResponseIter S) (option ProviderResponse) :=
  ndjson.writeProvidersResponseIter_Next.

(** ** net/http, as far as the client uses it *)

Module http.
Definition MethodGet : string := "GET".
Definition MethodPost : string := "POST".
Definition StatusOK : Z := 200.
Definition StatusNotFound : Z := 404.

Record Request : Type := {
  Method : string;
  URL : string;
  Host : string;
  ReqBody : option (list Byte.byte);
  ReqCtx : context.Context
}.

Record Response (R : Type) : Type := {
  StatusCode : Z;
  Header_Get : string -> string;
  Body : io.ReadCloser R
}.
Arguments StatusCode {R} _.
Arguments Header_Get {R} _ _.
Arguments Body {R} _.
End http.

(** ** Package types/json and the client's collaborators *)

Module jsontypes.
Section Envelopes.
Context `{Package}.
Record ReadProvidersResponse : Type := {
  Providers : list (option ProviderResponse)
}.
Record WriteProvidersRequest : Type := {
  wqProviders : list (option WriteProviderRecord)
}.
Record WriteProvidersResponse : Type := {
  ProvideResults : list (option ProviderResponse)
}.
End Envelopes.
End jsontypes.
Import jsontypes.

#[export] Instance ReadProvidersResponse_Zero `{Package}
  : Zero ReadProvidersResponse := {| Providers := [] |}.

#[export] Instance WriteProvidersResponse_Zero `{Package}
  : Zero WriteProvidersResponse := {| ProvideResults := [] |}.

(** [crypto.PrivKey], [peer.ID.MatchesPublicKey] and the record's [Sign]. *)
Class Crypto : Type := {
  PrivKey : Type;
  PubKey : Type;
  GetPublic : PrivKey -> PubKey;
  MatchesPublicKey : PeerID -> PubKey -> bool;
  Sign : WriteBitswapProviderRecord -> PeerID -> PrivKey ->
         WriteBitswapProviderRecord * option error
}.

(** Functions of other packages that the client calls: [server.ProvidePath],
    [http.NewRequestWithContext], [mime.ParseMediaType] (its media type and
    error), [drjson.MarshalJSONBytes] and the package's own [httpError]. *)
Class Collaborators (R : Type) `{Package} : Type := {
  ProvidePath : string;
  NewRequestWithContext :
    context.Context -> string -> string -> option (list Byte.byte) ->
    http.Request + error;
  ParseMediaType : string -> string * option error;
  MarshalJSONBytes : WriteProvidersRequest -> list Byte.byte * option error;
  httpError : Z -> io.ReadCloser R -> error
}.

(** ** Package client *)

Module client.

Definition mediaTypeJSON : string := "application/json".
Definition mediaTypeNDJSON : string := "application/x-ndjson".

(** Modelled from the spec: the telemetry value object of a call and its
    constructor are in measures.go, which is not among the sources.  The
    record has the fields the client assigns (host, error, latency, status
    code, length); the constructor sets the operation name and starts the
    host at the placeholder the repository's constructor uses, the other
    fields at their zero values. *)
Record measurement : Type := {
  m_name : string;
  m_host : string;
  m_err : option error;
  m_latency : Duration;
  m_statusCode : Z;
  m_length : option nat
}.

(** Modelled from the spec: [newMeasurement(operation)] of measures.go. *)
Definition newMeasurement (name : string) : measurement :=
  {| m_name := name; m_host := "None"; m_err := None; m_latency := 0%Z;
     m_statusCode := 0%Z; m_length := None |}.

(** [clock.Clock] *)
Record Clock : Type := { Now : Time; Since : Time -> Duration }.

(** [record.Validator]; the client only stores it. *)
Inductive Validator : Type := ipns_Validator.

(** What a call does to the world besides returning. *)
Inductive Effect : Type :=
| Do (req : http.Request)                  (* c.httpClient.Do(req) *)
| BodyClose                                (* resp.Body.Close() *)
| Signing (req : WriteBitswapProviderRecord) (* req.Sign(...) *)
| AfterSign                                (* c.afterSignCallback(&req) *)
| LogError (msg : string)                  (* logger.Errorw *)
| Recorded (m : measurement).              (* measurement.record(ctx) *)

(** A computation with results [A] that logs its effects in order. *)
Definition M (A : Type) : Type := (A * list Effect)%type.
Definition ret {A} (a : A) : M A := (a, []).
Definition bind {A B} (m : M A) (k : A -> M B) : M B :=
  let '(a, l1) := m in let '(b, l2) := k a in (b, l1 ++ l2).
Definition emit (e : Effect) : M unit := (tt, [e]).

Declare Scope go_scope.
Delimit Scope go_scope with go.
Notation "x <- m ;; k" := (bind m (fun x => k))
  (at level 61, m at next level, right associativity) : go_scope.
Notation "m ;;; k" := (bind m (fun _ => k))
  (at level 61, right associativity) : go_scope.
Local Open Scope go_scope.

Section Client.
Context {R D : Type}.
Context `{Package} `{Crypto} `{!Collaborators R}.
Context `{!JSONReader R D}.
Context `{!JSONDecode D UnknownProviderRecord}.
Context `{!JSONDecode D ReadProvidersResponse}.
Context `{!JSONDecode D WriteProvidersResponse}.

(** The interface [httpClient]: its method [Do]. *)
Definition httpClient : Type := http.Request -> http.Response R + error.

Record client : Type := {
  baseURL : string;
  httpClient_ : httpClient;
  validator : Validator;
  clock : Clock;
  accepts : string;
  peerID : PeerID;
  addrs : list Multiaddr;
  identity : option PrivKey;
  afterSignCallback :
    option (WriteBitswapProviderRecord -> WriteBitswapProviderRecord)
}.

Definition option_ : Type := client -> client.

Definition WithIdentity (identity : option PrivKey) : option_ :=
  fun c =>
    {| baseURL := baseURL c; httpClient_ := httpClient_ c;
       validator := validator c; clock := clock c; accepts := accepts c;
       peerID := peerID c; addrs := addrs c; identity := identity;
       afterSignCallback := afterSignCallback c |}.

Definition WithHTTPClient (h : httpClient) : option_ :=
  fun c =>
    {| baseURL := baseURL c; httpClient_ := h;
       validator := validator c; clock := clock c; accepts := accepts c;
       peerID := peerID c; addrs := addrs c; identity := identity c;
       afterSignCallback := afterSignCallback c |}.

Definition WithProviderInfo (peerID : PeerID) (addrs' : list Multiaddr)
  : option_ :=
  fun c =>
    {| baseURL := baseURL c; httpClient_ := httpClient_ c;
       validator := validator c; clock := clock c; accepts := accepts c;
       peerID := peerID;
       addrs := fold_left (fun acc a => acc ++ [a]) addrs' (addrs c);
       identity := identity c;
       afterSignCallback := afterSignCallback c |}.

Definition WithStreamResultsRequired : option_ :=
  fun c =>
    {| baseURL := baseURL c; httpClient_ := httpClient_ c;
       validator := validator c; clock := clock c;
       accepts := mediaTypeJSON;
       peerID := peerID c; addrs := addrs c; identity := identity c;
       afterSignCallback := afterSignCallback c |}.

(** [peer.ID.Size()] *)
Definition Size (p : PeerID) : nat := String.length p.

(** The client [New] starts from; the default transport and the wall
    clock are the caller's arguments here. *)
Definition defaults (defaultHTTPClient : httpClient) (clock_New : Clock)
  (baseURL : string) : client :=
  {| baseURL := baseURL;
     httpClient_ := defaultHTTPClient;
     validator := ipns_Validator;
     clock := clock_New;
     accepts := String.concat "," [mediaTypeNDJSON; mediaTypeJSON];
     peerID := "";
     addrs := [];
     identity := None;
     afterSignCallback := None |}.

(** [for _, opt := range opts { opt(client) }] *)
Definition configure (opts : list option_) (c : client) : client :=
  fold_left (fun c opt => opt c) opts c.

Definition New (defaultHTTPClient : httpClient) (clock_New : Clock)
  (baseURL : string) (opts : list option_) : option client * option error :=
  let client := defaults defaultHTTPClient clock_New baseURL in
  let client := configure opts client in
  match identity client with
  | Some identity =>
      if negb (Size (peerID client) =? 0)
         && negb (MatchesPublicKey (peerID client) (GetPublic identity))
      then (None, Some (errors.New "identity does not match provider"))
      else (Some client, None)
  | None => (Some client, None)
  end.

(** The value of [provs iter.Iter[types.ProviderResponse]]: a nil
    interface is [None], otherwise the dynamic type is one of two. *)
Inductive ProvsIter : Type :=
| OfSlice (s : iter.SliceIter (option ProviderResponse))
| OfNDJSON (p : ndjson.readProvidersResponseIter (iter.JSONIter R D)).

(** The deferred function of [FindProviders]: the length is measured
    when the result is a [*SliceIter], then the measurement is
    recorded. *)
Definition FindProviders_deferred (measurement : measurement)
  (provs : option ProvsIter) (err : option error)
  : M (option ProvsIter * option error) :=
  let measurement :=
    match provs with
    | Some (OfSlice sliceIter) =>
        {| m_name := m_name measurement; m_host := m_host measurement;
           m_err := m_err measurement;
           m_latency := m_latency measurement;
           m_statusCode := m_statusCode measurement;
           m_length := Some (List.length (iter.Slice sliceIter)) |}
    | _ => measurement
    end in
  emit (Recorded measurement) ;;;
  ret (provs, err).

Definition FindProviders (c : client) (ctx : context.Context) (key : Cid)
  : M (option ProvsIter * option error) :=
  let measurement := newMeasurement "FindProviders" in
  let url := (baseURL c ++ ProvidePath ++ key)%string in
  match NewRequestWithContext ctx http.MethodGet url None with
  | inr err => FindProviders_deferred measurement None (Some err)
  | inl req =>
      let measurement :=
        {| m_name := m_name measurement; m_host := http.Host req;
           m_err := m_err measurement;
           m_latency := m_latency measurement;
           m_statusCode := m_statusCode measurement;
           m_length := m_length measurement |} in
      let start := Now (clock c) in
      emit (Do req) ;;;
      let resp := httpClient_ c req in
      let measurement :=
        {| m_name := m_name measurement; m_host := m_host measurement;
           m_err := match resp with inr err => Some err | inl _ => None end;
           m_latency := Since (clock c) start;
           m_statusCode := m_statusCode measurement;
           m_length := m_length measurement |} in
      match resp with
      | inr err => FindProviders_deferred measurement None (Some err)
      | inl resp =>
          let measurement :=
            {| m_name := m_name measurement; m_host := m_host measurement;
               m_err := m_err measurement;
               m_latency := m_latency measurement;
               m_statusCode := http.StatusCode resp;
               m_length := m_length measurement |} in
          if (http.StatusCode resp =? http.StatusNotFound)%Z then
            emit BodyClose ;;;
            FindProviders_deferred measurement None None
          else if negb (http.StatusCode resp =? http.StatusOK)%Z then
            emit BodyClose ;;;
            let body := io.Close (http.Body resp) in
            FindProviders_deferred measurement None
              (Some (httpError (http.StatusCode resp) body))
          else
            let respContentType := http.Header_Get resp "Content-Type" in
            let '(mediaType, err) := ParseMediaType respContentType in
            match err with
            | Some err =>
                emit BodyClose ;;;
                FindProviders_deferred measurement None
                  (Some (Wrap "parsing Content-Type: " err))
            | None =>
                if String.eqb mediaType mediaTypeJSON then
                  let parsedResp : ReadProvidersResponse := zero in
                  let '(parsedResp, err, _) :=
                    Decode (NewDecoder (io.Closer (http.Body resp)))
                           parsedResp in
                  let iter := iter.FromSlice (Providers parsedResp) in
                  emit BodyClose ;;;
                  FindProviders_deferred measurement
                    (Some (OfSlice iter)) err
                else if String.eqb mediaType mediaTypeNDJSON then
                  let iter :=
                    ndjson.NewReadProvidersResponseIter ctx
                      (io.Closer (http.Body resp)) in
                  FindProviders_deferred measurement
                    (Some (OfNDJSON iter)) None
                else
                  emit (LogError "unknown media type") ;;;
                  emit BodyClose ;;;
                  FindProviders_deferred measurement None
                    (Some (errors.New "unknown content type"))
            end
      end
  end.

(** [fmt.Errorf("expected 1 result but got %d", n)] *)
Definition expected_1_result (n : nat) : error :=
  errors.New
    ("expected 1 result but got " ++
     NilZero.string_of_uint (Nat.to_uint n))%string.

Definition provideSignedBitswapRecord (c : client)
  (ctx : context.Context) (bswp : WriteBitswapProviderRecord)
  : M (Duration * option error) :=
  let req := {| wqProviders := [Some (WriteBitswap bswp)] |} in
  let url := (baseURL c ++ ProvidePath)%string in
  let '(b, err) := MarshalJSONBytes req in
  match err with
  | Some err => ret (0%Z, Some err)
  | None =>
      match NewRequestWithContext ctx http.MethodPost url (Some b) with
      | inr err => ret (0%Z, Some err)
      | inl httpReq =>
          emit (Do httpReq) ;;;
          match httpClient_ c httpReq with
          | inr err =>
              ret (0%Z,
                   Some (Wrap
                     "making HTTP req to provide a signed record: " err))
          | inl resp =>
              (* the deferred resp.Body.Close() runs as the function
                 returns, after the results are computed *)
              res <-
                (if negb (http.StatusCode resp =? http.StatusOK)%Z then
                   ret (0%Z,
                        Some (httpError (http.StatusCode resp)
                                        (http.Body resp)))
                 else
                   let provideResult : WriteProvidersResponse := zero in
                   let '(provideResult, err, _) :=
                     Decode (NewDecoder (io.Closer (http.Body resp)))
                            provideResult in
                   match err with
                   | Some err => ret (0%Z, Some err)
                   | None =>
                       if negb (List.length
                                  (ProvideResults provideResult) =? 1)
                       then
                         ret (0%Z,
                              Some (expected_1_result
                                      (List.length
                                         (ProvideResults provideResult))))
                       else
                         match nth 0 (ProvideResults provideResult) None
                         with
                         | Some (WriteBitswapResponse v) =>
                             match rAdvisoryTTL v with
                             | Some d => ret (d, None)
                             | None => ret (0%Z, None)
                             end
                         | _ =>
                             ret (0%Z,
                                  Some (errors.New
                                          "expected AdvisoryTTL field"))
                         end
                   end) ;;
              emit BodyClose ;;;
              ret res
          end
      end
  end.

Definition ProvideBitswap (c : client) (ctx : context.Context)
  (keys : list Cid) (ttl : Duration) : M (Duration * option error) :=
  match identity c with
  | None =>
      ret (0%Z,
           Some (errors.New
                   "cannot provide Bitswap records without an identity"))
  | Some identity =>
      if Size (peerID c) =? 0 then
        ret (0%Z,
             Some (errors.New
                     "cannot provide Bitswap records without a peer ID"))
      else
        (* types.CID{Cid: c} and types.Multiaddr{Multiaddr: a} wrap one
           field: a wrapper is identified with what it wraps *)
        let ks := map (fun c => c) keys in
        let now := Now (clock c) in
        let req :=
          {| wProtocol := "transport-bitswap";
             wSchema := SchemaBitswap;
             wSignature := "";
             wPayload :=
               {| Keys := ks;
                  AdvisoryTTL := Some ttl;
                  Timestamp := Some now;
                  ID := Some (peerID c);
                  Addrs := addrs c |} |} in
        emit (Signing req) ;;;
        let '(req, err) := Sign req (peerID c) identity in
        match err with
        | Some err => ret (0%Z, Some err)
        | None =>
            req <-
              match afterSignCallback c with
              | Some callback =>
                  emit AfterSign ;;; ret (callback req)
              | None => ret req
              end ;;
            r <- provideSignedBitswapRecord c ctx req ;;
            let '(advisoryTTL, err) := r in
            match err with
            | Some err => ret (0%Z, Some err)
            | None => ret (advisoryTTL, err)
            end
        end
  end.

(** Calling [Next()] through the interface value: on a nil interface the
    call panics (nil dereference), otherwise it goes to the method of
    the dynamic type. *)
Inductive Called (A : Type) : Type :=
| Panics
| Returns (a : A).
Arguments Panics {A}.
Arguments Returns {A} _.

Definition ProvsIter_Next (provs : option ProvsIter)
  : Called (Result (option ProviderResponse) * option ProvsIter) :=
  match provs with
  | None => Panics
  | Some (OfSlice s) =>
      let '(r, s) := Next s in Returns (r, Some (OfSlice s))
  | Some (OfNDJSON p) =>
      let '(r, p) := Next p in Returns (r, Some (OfNDJSON p))
  end.
End Client.
Arguments Panics {A}.
Arguments Returns {A} _.

End client.

(** ** Sequences of calls *)

(** What a caller can do to a stream iterator between two observations:
    pull, or cancel the context the iterator was created with. *)
Inductive Event : Type :=
| CallNext
| Cancel (e : error).

(** A result is terminal when it reports exhaustion or carries an error. *)
Definition terminal {T : Type} (r : Result T) : bool :=
  let '(_, hasMore, err) := r in
  negb hasMore || match err with Some _ => true | None => false end.

(** The reader after [Close], when it has one. *)
Definition closed_once {R : Type} (r : io.Reader R) : io.Reader R :=
  match r with
  | io.Closer rc => io.Closer (io.Close rc)
  | io.Plain c => io.Plain c
  end.

(** [j'] is [j] released: [done] is set and the reader has received one
    [Close] more, when it has a [Close]. *)
Definition released {R D : Type} (j j' : iter.JSONIter R D) : Prop :=
  iter.done j' = true /\ iter.Reader j' = closed_once (iter.Reader j).

Module runs.

Section Generic.
Context {S T : Type} `{Iter S T}.

(** The state after [n] calls of [Next]. *)
Fixpoint NextN (n : nat) (s : S) : S :=
  match n with
  | 0 => s
  | Datatypes.S n => NextN n (snd (Next s))
  end.
End Generic.

Section Stream.
Context {R D T : Type} `{Zero T} `{JSONDecode D T}.

Definition cancelled (e : error) (j : iter.JSONIter R D)
  : iter.JSONIter R D :=
  {| iter.Decoder := iter.Decoder j; iter.Reader := iter.Reader j;
     iter.ctx := context.cancel e (iter.ctx j);
     iter.done := iter.done j |}.

Definition step (j : iter.JSONIter R D) (ev : Event) : iter.JSONIter R D :=
  match ev with
  | CallNext => snd (iter.JSONIter_Next (T := T) j)
  | Cancel e => cancelled e j
  end.

Definition run (evs : list Event) (j : iter.JSONIter R D)
  : iter.JSONIter R D :=
  fold_left step evs j.
End Stream.

Section Dispatching.
Context `{Package} {R D : Type} `{JSONDecode D UnknownProviderRecord}.

Definition step_read (p : ndjson.readProvidersResponseIter (iter.JSONIter R D))
  (ev : Event) : ndjson.readProvidersResponseIter (iter.JSONIter R D) :=
  match ev with
  | CallNext => snd (ndjson.readProvidersResponseIter_Next p)
  | Cancel e => {| ndjson.r_iter := cancelled e (ndjson.r_iter p) |}
  end.

Definition run_read (evs : list Event)
  (p : ndjson.readProvidersResponseIter (iter.JSONIter R D)) :=
  fold_left step_read evs p.

Definition step_writeRequest
  (p : ndjson.writeProvidersRequestIter (iter.JSONIter R D))
  (ev : Event) : ndjson.writeProvidersRequestIter (iter.JSONIter R D) :=
  match ev with
  | CallNext => snd (ndjson.writeProvidersRequestIter_Next p)
  | Cancel e => {| ndjson.wq_iter := cancelled e (ndjson.wq_iter p) |}
  end.

Definition run_writeRequest (evs : list Event)
  (p : ndjson.writeProvidersRequestIter (iter.JSONIter R D)) :=
  fold_left step_writeRequest evs p.

Definition step_writeResponse
  (p : ndjson.writeProvidersResponseIter (iter.JSONIter R D))
  (ev : Event) : ndjson.writeProvidersResponseIter (iter.JSONIter R D) :=
  match ev with
  | CallNext => snd (ndjson.writeProvidersResponseIter_Next p)
  | Cancel e => {| ndjson.wr_iter := cancelled e (ndjson.wr_iter p) |}
  end.

Definition run_writeResponse (evs : list Event)
  (p : ndjson.writeProvidersResponseIter (iter.JSONIter R D)) :=
  fold_left step_writeResponse evs p.
End Dispatching.

End runs.

(** ** Draining an iterator, and what a decoder holds *)

Module traces.

Section Generic.
Context {S T : Type} `{Iter S T}.

(** The results of [n] successive calls of [Next], and the state after
    them. *)
Fixpoint pulls (n : nat) (s : S) : list (Result T) * S :=
  match n with
  | 0 => ([], s)
  | Datatypes.S n =>
      let '(r, s) := Next s in
      let '(rs, s) := pulls n s in
      (r :: rs, s)
  end.
End Generic.

Section Decoding.
Context {D T : Type} `{Zero T} `{JSONDecode D T}.

(** [Decodes d vs d']: from state [d], successive calls of [Decode] into a
    zero value succeed with the values [vs] and leave the decoder at
    [d']. *)
Inductive Decodes : D -> list T -> D -> Prop :=
| Decodes_nil d : Decodes d [] d
| Decodes_cons d v d' vs d'' :
    Decode d zero = (v, None, d') ->
    Decodes d' vs d'' ->
    Decodes d (v :: vs) d''.
End Decoding.

(** The results a consumer can rely on: a value with [hasMore] and no
    error, or no value and no [hasMore]. *)
Definition settled {A : Type} (r : Result (option A)) : bool :=
  match r with
  | (Some _, true, None) => true
  | (None, false, _) => true
  | _ => false
  end.

(** Effects of the client by kind. *)
Definition is_Do (e : client.Effect) : bool :=
  match e with client.Do _ => true | _ => false end.

Definition is_BodyClose (e : client.Effect) : bool :=
  match e with client.BodyClose => true | _ => false end.

Definition is_Recorded (e : client.Effect) : bool :=
  match e with client.Recorded _ => true | _ => false end.

Definition is_AfterSign (e : client.Effect) : bool :=
  match e with client.AfterSign => true | _ => false end.

Definition is_Signing (e : client.Effect) : bool :=
  match e with client.Signing _ => true | _ => false end.

Definition count (f : client.Effect -> bool) (l : list client.Effect) : nat :=
  List.length (filter f l).

Section Options.
Context {R : Type} `{Crypto}.

(** The options a caller of the package can build: the four exported
    constructors. *)
Inductive exported : client.option_ (R := R) -> Prop :=
| exported_WithIdentity k : exported (client.WithIdentity k)
| exported_WithHTTPClient h : exported (client.WithHTTPClient h)
| exported_WithProviderInfo p a : exported (client.WithProviderInfo p a)
| exported_WithStreamResultsRequired :
    exported client.WithStreamResultsRequired.
End Options.

End traces.

(** ** A scripted world, to run the code on inputs *)

Module Scripted.

(** One whitespace-delimited value of a body, by what [Decode] makes of
    it: an envelope, or an error. *)
Inductive Item : Type :=
| Value (v : UnknownProviderRecord)
| Broken (e : error).

Definition dq : string := String (ascii_of_nat 34) EmptyString.

(** [{"Schema":"bitswap/transport","ID":5}]: an object, but [ID] is no string. *)
Definition bad_payload : list Byte.byte :=
  list_byte_of_string
    ("{" ++ dq ++ "Schema" ++ dq ++ ":" ++ dq ++ "bitswap/transport" ++ dq ++ ","
         ++ dq ++ "ID" ++ dq ++ ":5}")%string.

(** [{"Schema":"bitswap/transport"}] *)
Definition good_payload : list Byte.byte :=
  list_byte_of_string
    ("{" ++ dq ++ "Schema" ++ dq ++ ":" ++ dq ++ "bitswap/transport" ++ dq ++ "}")%string.

(** [{"Schema":"graphsync"}] *)
Definition other_payload : list Byte.byte :=
  list_byte_of_string
    ("{" ++ dq ++ "Schema" ++ dq ++ ":" ++ dq ++ "graphsync" ++ dq ++ "}")%string.

Definition malformed (b : list Byte.byte) : bool :=
  String.eqb (string_of_list_byte b) (string_of_list_byte bad_payload).

Definition unmarshal_error : error :=
  External "json: cannot unmarshal number into Go struct field".

#[export] Instance package : Package := {|
  SchemaBitswap := "bitswap/transport";
  ReadBitswapProviderRecord := list Byte.byte;
  ReadBitswapProviderRecord_zero := [];
  Unmarshal_ReadBitswapProviderRecord b prov :=
    if malformed b then (prov, Some unmarshal_error) else (b, None);
  Unmarshal_WriteBitswapProviderRecord b prov :=
    if malformed b then (prov, Some unmarshal_error)
    else ({| wProtocol := "transport-bitswap"; wSchema := "bitswap/transport";
             wSignature := ""; wPayload := zero |}, None);
  Unmarshal_WriteBitswapProviderRecordResponse b prov :=
    if malformed b then (prov, Some unmarshal_error)
    else ({| rAdvisoryTTL := None |}, None)
|}.

(** What a body holds. *)
Inductive Wire : Type :=
| Lines (items : list Item)
| ReadDocument (providers : list (option ProviderResponse))
| WriteDocument (results : list (option ProviderResponse))
| Unparsable.

Definition syntax_error : error :=
  External "invalid character looking for beginning of value".

#[export] Instance reader : JSONReader Wire Wire :=
  fun r => match r with
           | io.Plain c => c
           | io.Closer rc => io.content rc
           end.

#[export] Instance decode_envelope : JSONDecode Wire UnknownProviderRecord :=
  fun d val =>
    match d with
    | Lines [] => (val, Some EOF, d)
    | Lines (Value v :: rest) => (v, None, Lines rest)
    | Lines (Broken e :: rest) => (val, Some e, Lines rest)
    | _ => (val, Some syntax_error, d)
    end.

#[export] Instance decode_read : JSONDecode Wire ReadProvidersResponse :=
  fun d val =>
    match d with
    | ReadDocument ps => ({| Providers := ps |}, None, Lines [])
    | Lines [] => (val, Some EOF, d)
    | _ => (val, Some syntax_error, d)
    end.

#[export] Instance decode_write : JSONDecode Wire WriteProvidersResponse :=
  fun d val =>
    match d with
    | WriteDocument rs => ({| ProvideResults := rs |}, None, Lines [])
    | Lines [] => (val, Some EOF, d)
    | _ => (val, Some syntax_error, d)
    end.

(** Keys are strings; the peer id of a key is the key's text. *)
#[export] Instance crypto : Crypto := {|
  PrivKey := string;
  PubKey := string;
  GetPublic k := k;
  MatchesPublicKey p pub := String.eqb p pub;
  Sign req p k :=
    ({| wProtocol := wProtocol req; wSchema := wSchema req;
        wSignature := ("sig:" ++ k)%string; wPayload := wPayload req |},
     None)
|}.

#[export] Instance collaborators : Collaborators Wire := {|
  ProvidePath := "/routing/v1/providers/";
  NewRequestWithContext ctx method url body :=
    inl {| http.Method := method; http.URL := url; http.Host := "router";
           http.ReqBody := body; http.ReqCtx := ctx |};
  ParseMediaType s :=
    if String.eqb s "" then (s, Some (External "mime: no media type"))
    else (s, None);
  MarshalJSONBytes req := (good_payload, None);
  httpError status body :=
    External ("HTTP error with StatusCode="
              ++ NilZero.string_of_int (Z.to_int status))%string
|}.

Definition clock0 : client.Clock :=
  {| client.Now := 0%Z; client.Since := fun _ => 1%Z |}.

(** A transport that answers every request with [status], the content
    type [ct] and the body [w]. *)
Definition answers (status : Z) (ct : string) (w : Wire)
  : client.httpClient (R := Wire) :=
  fun _ =>
    inl {| http.StatusCode := status;
           http.Header_Get := fun _ => ct;
           http.Body := {| io.content := w; io.closed := 0 |} |}.

Definition unreachable : client.httpClient (R := Wire) :=
  fun _ => inr (External "dial tcp: connection refused").

(** The client [New] configures from the given transport and options. *)
Definition client_of (h : client.httpClient (R := Wire))
  (opts : list (client.option_ (R := Wire))) : client.client (R := Wire) :=
  client.configure opts (client.defaults h clock0 "https://router.example").

(** An identity with the peer id that matches it, and one address. *)
Definition alice : list (client.option_ (R := Wire)) :=
  [client.WithIdentity (Some "alice");
   client.WithProviderInfo "alice" ["/ip4/127.0.0.1/tcp/4001"]].

(** 24 hours, in nanoseconds. *)
Definition day : Duration := 86400000000000%Z.

(** The key of the requests below. *)
Definition key : Cid := "bafkreifjjcie6lypi6ny7amxnfftagclbuxndqonfipmb64f2km2devei4".

Definition envelope (schema : string) (payload : list Byte.byte)
  : UnknownProviderRecord :=
  {| Protocol := "transport"; Schema := schema; Bytes := payload |}.

(** A stream iterator over a closable body that holds [items]. *)
Definition stream (items : list Item) : iter.JSONIter Wire Wire :=
  iter.FromReaderJSON context.Background
    (io.Closer {| io.content := Lines items; io.closed := 0 |}).

Definition read_stream (items : list Item)
  : ndjson.readProvidersResponseIter (iter.JSONIter Wire Wire) :=
  ndjson.NewReadProvidersResponseIter context.Background
    (io.Closer {| io.content := Lines items; io.closed := 0 |}).

(** Inputs of the runs below. *)
Definition unknown_line : Item := Value (envelope "graphsync" other_payload).
Definition bad_bitswap_line : Item := Value (envelope "bitswap/transport" bad_payload).


Definition no_providers : client.client (R := Wire) :=
  client_of (answers 404 "application/json" (ReadDocument [])) [].

Definition no_content : client.client (R := Wire) :=
  client_of (answers 204 "application/json" (ReadDocument [])) [].

Definition server_error : client.client (R := Wire) :=
  client_of (answers 500 "text/plain" Unparsable) [].

Definition provider_with_ttl : client.client (R := Wire) :=
  client_of
    (answers 200 "application/json"
       (WriteDocument
          [Some (WriteBitswapResponse {| rAdvisoryTTL := Some day |})]))
    alice.

(** A router that answers a provide request with 201 Created and a body
    that holds one bitswap result. *)
Definition created : client.client (R := Wire) :=
  client_of
    (answers 201 "application/json"
       (WriteDocument
          [Some (WriteBitswapResponse {| rAdvisoryTTL := Some day |})]))
    alice.

Definition anonymous : client.client (R := Wire) :=
  client_of unreachable [].

(** More inputs: a streamed and a batch answer, a failing router for
    provide requests, a cancelled context, and a signer that refuses. *)
Definition streaming : client.client (R := Wire) :=
  client_of (answers 200 "application/x-ndjson" (Lines [unknown_line])) [].

Definition one_provider : list (option ProviderResponse) :=
  [Some (UnknownResponse (envelope "graphsync" other_payload))].

Definition batch : client.client (R := Wire) :=
  client_of (answers 200 "application/json" (ReadDocument one_provider)) [].

Definition refusing_router : client.client (R := Wire) :=
  client_of (answers 500 "text/plain" Unparsable) alice.

Definition cut_off : client.client (R := Wire) :=
  client_of unreachable alice.

Definition cancelled_ctx : context.Context :=
  context.cancel Canceled context.Background.

Definition get_request : http.Request :=
  {| http.Method := "GET";
     http.URL := ("https://router.example/routing/v1/providers/" ++ key)%string;
     http.Host := "router";
     http.ReqBody := None;
     http.ReqCtx := context.Background |}.

Definition post_request : http.Request :=
  {| http.Method := "POST";
     http.URL := "https://router.example/routing/v1/providers/";
     http.Host := "router";
     http.ReqBody := Some good_payload;
     http.ReqCtx := context.Background |}.

Definition signing_error : error := External "crypto: signing refused".

Definition refusing_signer : Crypto := {|
  PrivKey := string;
  PubKey := string;
  GetPublic k := k;
  MatchesPublicKey p pub := String.eqb p pub;
  Sign req p k := (req, Some signing_error)
|}.

Definition unsigned_client : client.client (R := Wire) (H0 := refusing_signer) :=
  client.configure
    [client.WithIdentity (H0 := refusing_signer) (Some "alice");
     client.WithProviderInfo (H0 := refusing_signer) "alice" []]
    (client.defaults (H0 := refusing_signer) unreachable clock0
       "https://router.example").

End Scripted.

(** * Properties *)

(** ** The stream iterator *)

Section StreamFacts.
Context {R D T : Type} `{Zero T} `{JSONDecode D T}.
Implicit Types (j : iter.JSONIter R D) (r : Result T).

Lemma close_done j : iter.done (iter.close j) = true.
Proof. unfold iter.close; simpl. destruct (iter.Reader j); reflexivity. Qed.

Lemma close_Reader j :
  iter.Reader (iter.close j) = closed_once (iter.Reader j).
Proof. unfold iter.close; simpl. destruct (iter.Reader j); reflexivity. Qed.

Lemma close_ctx j : iter.ctx (iter.close j) = iter.ctx j.
Proof. unfold iter.close; simpl. destruct (iter.Reader j); reflexivity. Qed.

Lemma close_Decoder j : iter.Decoder (iter.close j) = iter.Decoder j.
Proof. unfold iter.close; simpl. destruct (iter.Reader j); reflexivity. Qed.

Lemma closes_closed_once (rd : io.Reader R) :
  io.closes (closed_once rd) <= io.closes rd + 1.
Proof. destruct rd; simpl; lia. Qed.

Lemma JSONIter_Next_done j :
  iter.done j = true ->
  iter.JSONIter_Next (T := T) j = ((zero, false, None), j).
Proof. intros Hd. unfold iter.JSONIter_Next. rewrite Hd. reflexivity. Qed.

(** The two ways a call can leave the iterator: released (done set, reader
    closed once more), or as live as it was with the reader untouched. *)
Lemma JSONIter_Next_shape j r j' :
  iter.done j = false ->
  iter.JSONIter_Next j = (r, j') ->
  (terminal r = true /\ iter.done j' = true /\
   iter.Reader j' = closed_once (iter.Reader j) /\ iter.ctx j' = iter.ctx j)
  \/
  (terminal r = false /\ iter.done j' = false /\
   iter.Reader j' = iter.Reader j /\ iter.ctx j' = iter.ctx j).
Proof.
  intros Hd. unfold iter.JSONIter_Next. rewrite Hd.
  destruct (context.Err (iter.ctx j)) as [ctxErr|] eqn:Hctx.
  - intros E; inversion E; subst; clear E. left.
    rewrite close_done, close_Reader, close_ctx. auto.
  - destruct (Decode (iter.Decoder j) zero) as [[v err] d] eqn:Hdec.
    destruct (errors.Is err EOF) eqn:Heof.
    + intros E; inversion E; subst; clear E. left.
      rewrite close_done, close_Reader, close_ctx. auto.
    + destruct err as [e|]; intros E; inversion E; subst; clear E.
      * left. rewrite close_done, close_Reader, close_ctx. auto.
      * right. simpl. auto.
Qed.

Lemma step_shape j ev :
  (iter.done (runs.step (T := T) j ev) = iter.done j /\
   iter.Reader (runs.step (T := T) j ev) = iter.Reader j)
  \/
  (iter.done j = false /\ iter.done (runs.step (T := T) j ev) = true /\
   iter.Reader (runs.step (T := T) j ev) = closed_once (iter.Reader j)).
Proof.
  destruct ev as [|e]; simpl.
  - destruct (iter.done j) eqn:Hd.
    + rewrite (JSONIter_Next_done j Hd). simpl. auto.
    + destruct (iter.JSONIter_Next (T := T) j) as [r j'] eqn:E.
      destruct (JSONIter_Next_shape j r j' Hd E) as [(_ & ? & ? & _)|(_ & ? & ? & _)];
        simpl; auto.
  - left. split; reflexivity.
Qed.

(** Once done, every event leaves [done] set and the reader as it is. *)
Lemma run_done evs : forall j,
  iter.done j = true ->
  iter.done (runs.run (T := T) evs j) = true /\
  iter.Reader (runs.run (T := T) evs j) = iter.Reader j.
Proof.
  induction evs as [|ev evs IH]; intros j Hd; simpl; [auto|].
  destruct (step_shape j ev) as [[Hd' Hr]|[Hd' _]]; [|congruence].
  rewrite Hd in Hd'. destruct (IH _ Hd') as [? ?]. split; congruence.
Qed.

(** At most one [Close] over any sequence of calls and cancellations. *)
Lemma run_closes evs : forall j,
  io.closes (iter.Reader (runs.run (T := T) evs j))
  <= io.closes (iter.Reader j) + (if iter.done j then 0 else 1).
Proof.
  induction evs as [|ev evs IH]; intros j; simpl; [lia|].
  destruct (step_shape j ev) as [[Hd' Hr]|(Hd & Hd' & Hr)].
  - specialize (IH (runs.step (T := T) j ev)). rewrite Hd', Hr in IH. exact IH.
  - destruct (run_done evs _ Hd') as [_ Hsame].
    change (fold_left runs.step evs (runs.step (T := T) j ev))
      with (runs.run (T := T) evs (runs.step (T := T) j ev)).
    rewrite Hsame, Hr, Hd. apply closes_closed_once.
Qed.

End StreamFacts.

(** ** The schema-dispatching decoders *)

(** The three [Next] methods have one shape: unfold, then split on the
    inner result, on the discriminator and on the result of [Unmarshal]. *)
Ltac dispatch_unfold :=
  unfold ndjson.readProvidersResponseIter_Next,
    ndjson.writeProvidersRequestIter_Next,
    ndjson.writeProvidersResponseIter_Next.

Ltac dispatch_cases :=
  dispatch_unfold;
  repeat match goal with
         | |- context [Next ?s] =>
             destruct (Next s) as [[[? [|]] [?|]] ?]; simpl
         | |- context [String.eqb ?a ?b] => destruct (String.eqb a b)
         | |- context [match ?u with pair _ _ => _ end] =>
             destruct u as [? [?|]]
         end;
  try reflexivity.

Section DispatchFacts.
Context `{Package} {S : Type} `{Iter S UnknownProviderRecord}.

(** A pull of a dispatching decoder is one pull of the inner iterator, and
    nothing else happens to the inner iterator. *)
Lemma read_inner (p : ndjson.readProvidersResponseIter S) :
  ndjson.r_iter (snd (ndjson.readProvidersResponseIter_Next p))
  = snd (Next (ndjson.r_iter p)).
Proof. dispatch_cases. Qed.

Lemma writeRequest_inner (p : ndjson.writeProvidersRequestIter S) :
  ndjson.wq_iter (snd (ndjson.writeProvidersRequestIter_Next p))
  = snd (Next (ndjson.wq_iter p)).
Proof. dispatch_cases. Qed.

Lemma writeResponse_inner (p : ndjson.writeProvidersResponseIter S) :
  ndjson.wr_iter (snd (ndjson.writeProvidersResponseIter_Next p))
  = snd (Next (ndjson.wr_iter p)).
Proof. dispatch_cases. Qed.

(** When the inner pull is terminal, the decoder's result is the inner
    one with the value dropped, reported with [hasMore = false]. *)
Lemma read_of_terminal (p : ndjson.readProvidersResponseIter S) v ok err it :
  Next (ndjson.r_iter p) = ((v, ok, err), it) ->
  terminal (v, ok, err) = true ->
  fst (ndjson.readProvidersResponseIter_Next p)
  = (None, false, if ok then err else None).
Proof.
  intros E Ht. unfold ndjson.readProvidersResponseIter_Next. rewrite E.
  destruct ok; simpl; [|reflexivity].
  destruct err; [reflexivity|discriminate].
Qed.

Lemma writeRequest_of_terminal (p : ndjson.writeProvidersRequestIter S)
  v ok err it :
  Next (ndjson.wq_iter p) = ((v, ok, err), it) ->
  terminal (v, ok, err) = true ->
  fst (ndjson.writeProvidersRequestIter_Next p)
  = (None, false, if ok then err else None).
Proof.
  intros E Ht. unfold ndjson.writeProvidersRequestIter_Next. rewrite E.
  destruct ok; simpl; [|reflexivity].
  destruct err; [reflexivity|discriminate].
Qed.

Lemma writeResponse_of_terminal (p : ndjson.writeProvidersResponseIter S)
  v ok err it :
  Next (ndjson.wr_iter p) = ((v, ok, err), it) ->
  terminal (v, ok, err) = true ->
  fst (ndjson.writeProvidersResponseIter_Next p)
  = (None, false, if ok then err else None).
Proof.
  intros E Ht. unfold ndjson.writeProvidersResponseIter_Next. rewrite E.
  destruct ok; simpl; [|reflexivity].
  destruct err; [reflexivity|discriminate].
Qed.

End DispatchFacts.

Section DispatchOverStream.
Context `{Package} {R D : Type} `{JSONDecode D UnknownProviderRecord}.

Lemma run_read_inner evs : forall p,
  ndjson.r_iter (runs.run_read evs p)
  = runs.run (T := UnknownProviderRecord) (R := R) evs (ndjson.r_iter p).
Proof.
  induction evs as [|ev evs IH]; intros p; [reflexivity|].
  unfold runs.run_read, runs.run in *. simpl. rewrite IH. f_equal.
  destruct ev; simpl; [exact (read_inner p)|reflexivity].
Qed.

Lemma run_writeRequest_inner evs : forall p,
  ndjson.wq_iter (runs.run_writeRequest evs p)
  = runs.run (T := UnknownProviderRecord) (R := R) evs (ndjson.wq_iter p).
Proof.
  induction evs as [|ev evs IH]; intros p; [reflexivity|].
  unfold runs.run_writeRequest, runs.run in *. simpl. rewrite IH. f_equal.
  destruct ev; simpl; [exact (writeRequest_inner p)|reflexivity].
Qed.

Lemma run_writeResponse_inner evs : forall p,
  ndjson.wr_iter (runs.run_writeResponse evs p)
  = runs.run (T := UnknownProviderRecord) (R := R) evs (ndjson.wr_iter p).
Proof.
  induction evs as [|ev evs IH]; intros p; [reflexivity|].
  unfold runs.run_writeResponse, runs.run in *. simpl. rewrite IH. f_equal.
  destruct ev; simpl; [exact (writeResponse_inner p)|reflexivity].
Qed.

End DispatchOverStream.

(** ** Release of the stream *)

Section Release.
Context {R D T : Type} `{Zero T} `{JSONDecode D T}.
Context `{Package} `{JSONDecode D UnknownProviderRecord}.

Lemma terminal_released (j : iter.JSONIter R D) r j' :
  iter.done j = false ->
  iter.JSONIter_Next (T := T) j = (r, j') ->
  terminal r = true ->
  released j j'.
Proof.
  intros Hd E Ht.
  destruct (JSONIter_Next_shape j r j' Hd E) as [(_ & ? & ? & _)|(Hn & _)].
  - split; assumption.
  - congruence.
Qed.

Lemma Next_on_cancelled (j : iter.JSONIter R D) e :
  iter.done j = false ->
  context.Err (iter.ctx j) = Some e ->
  iter.JSONIter_Next (T := T) j = ((zero, true, Some e), iter.close j).
Proof.
  intros Hd He. unfold iter.JSONIter_Next. rewrite Hd, He. reflexivity.
Qed.

Lemma Next_on_decode_error (j : iter.JSONIter R D) v err d :
  iter.done j = false ->
  context.Err (iter.ctx j) = None ->
  Decode (iter.Decoder j) (zero : T) = (v, err, d) ->
  err <> None ->
  terminal (fst (iter.JSONIter_Next (T := T) j)) = true /\
  released j (snd (iter.JSONIter_Next (T := T) j)).
Proof.
  intros Hd Hc Hdec Herr.
  assert (Ht : terminal (fst (iter.JSONIter_Next (T := T) j)) = true).
  { unfold iter.JSONIter_Next. rewrite Hd, Hc, Hdec.
    destruct (errors.Is err EOF); [reflexivity|].
    destruct err; [reflexivity|congruence]. }
  split; [exact Ht|].
  destruct (iter.JSONIter_Next (T := T) j) as [r j'] eqn:E.
  exact (terminal_released j r j' Hd E Ht).
Qed.

(** C1 (amended).  On a live stream iterator each of its own terminal
    paths (the cancellation observed, the end of the stream, any other
    error of [Decode]) sets [done] and closes the reader once; over any
    sequence of [Next] calls and cancellations the reader is closed at most
    once, and never again once the iterator is done, also when the iterator
    is pulled through one of the three schema-dispatching decoders, whose
    pull does to the stream what the one inner pull does and nothing more. *)
Theorem stream_closed_on_own_terminal_paths_at_most_once
  (j : iter.JSONIter R D) :
  (iter.done j = false ->
   (forall e, context.Err (iter.ctx j) = Some e ->
      released j (snd (iter.JSONIter_Next (T := T) j)))
   /\ (context.Err (iter.ctx j) = None ->
       forall v err d,
         Decode (iter.Decoder j) (zero : T) = (v, err, d) -> err <> None ->
         terminal (fst (iter.JSONIter_Next (T := T) j)) = true /\
         released j (snd (iter.JSONIter_Next (T := T) j))))
  /\ (forall evs,
        io.closes (iter.Reader (runs.run (T := T) evs j))
        <= io.closes (iter.Reader j) + (if iter.done j then 0 else 1))
  /\ (forall evs,
        ndjson.r_iter (runs.run_read evs {| ndjson.r_iter := j |})
        = runs.run (T := UnknownProviderRecord) evs j /\
        ndjson.wq_iter (runs.run_writeRequest evs {| ndjson.wq_iter := j |})
        = runs.run (T := UnknownProviderRecord) evs j /\
        ndjson.wr_iter (runs.run_writeResponse evs {| ndjson.wr_iter := j |})
        = runs.run (T := UnknownProviderRecord) evs j)
  /\ (forall evs,
        io.closes
          (iter.Reader
             (ndjson.r_iter (runs.run_read evs {| ndjson.r_iter := j |})))
        <= io.closes (iter.Reader j) + (if iter.done j then 0 else 1) /\
        io.closes
          (iter.Reader
             (ndjson.wq_iter
                (runs.run_writeRequest evs {| ndjson.wq_iter := j |})))
        <= io.closes (iter.Reader j) + (if iter.done j then 0 else 1) /\
        io.closes
          (iter.Reader
             (ndjson.wr_iter
                (runs.run_writeResponse evs {| ndjson.wr_iter := j |})))
        <= io.closes (iter.Reader j) + (if iter.done j then 0 else 1)).
Proof.
  split; [|split; [|split]].
  - intros Hd. split.
    + intros e He. rewrite (Next_on_cancelled j e Hd He).
      split; [apply close_done|apply close_Reader].
    + intros Hc v err d Hdec Herr.
      exact (Next_on_decode_error j v err d Hd Hc Hdec Herr).
  - intros evs. apply run_closes.
  - intros evs. split; [|split].
    + apply run_read_inner.
    + apply run_writeRequest_inner.
    + apply run_writeResponse_inner.
  - intros evs. split; [|split].
    + rewrite run_read_inner. apply run_closes.
    + rewrite run_writeRequest_inner. apply run_closes.
    + rewrite run_writeResponse_inner. apply run_closes.
Qed.

End Release.

(** ** After a terminal result *)

Section StreamPostTerminal.
Context {R D T : Type} `{Zero T} `{JSONDecode D T}.

Lemma JSONIter_terminal_done (j : iter.JSONIter R D) r j' :
  iter.JSONIter_Next (T := T) j = (r, j') ->
  terminal r = true ->
  iter.done j' = true.
Proof.
  intros E Ht. destruct (iter.done j) eqn:Hd.
  - rewrite (JSONIter_Next_done j Hd) in E. inversion E; subst. exact Hd.
  - destruct (JSONIter_Next_shape j r j' Hd E) as [(_ & ? & _)|(? & _)];
      congruence.
Qed.

Lemma JSONIter_after_done (j : iter.JSONIter R D) evs :
  iter.done j = true ->
  fst (iter.JSONIter_Next (T := T) (runs.run (T := T) evs j))
  = (zero, false, None).
Proof.
  intros Hd. destruct (run_done (T := T) evs j Hd) as [Hd' _].
  rewrite (JSONIter_Next_done _ Hd'). reflexivity.
Qed.

End StreamPostTerminal.

Section PostTerminal.
Context {R D T : Type} `{Zero T} `{JSONDecode D T}.
Context `{Package} `{JSONDecode D UnknownProviderRecord}.

Lemma SliceIter_exhausted (s : iter.SliceIter T) :
  List.length (iter.Slice s) <= iter.i s ->
  iter.SliceIter_Next s = ((zero, false, None), s).
Proof.
  intros Hle. unfold iter.SliceIter_Next.
  destruct (Nat.leb_spec (List.length (iter.Slice s)) (iter.i s)); [reflexivity|lia].
Qed.

Lemma SliceIter_terminal (s : iter.SliceIter T) r s' :
  iter.SliceIter_Next s = (r, s') ->
  terminal r = true ->
  List.length (iter.Slice s') <= iter.i s'.
Proof.
  unfold iter.SliceIter_Next.
  destruct (Nat.leb_spec (List.length (iter.Slice s)) (iter.i s));
    intros E; inversion E; subst; clear E; simpl; [auto|discriminate].
Qed.

Lemma SliceIter_stays_exhausted n : forall s : iter.SliceIter T,
  List.length (iter.Slice s) <= iter.i s ->
  runs.NextN n s = s.
Proof.
  induction n as [|n IH]; intros s Hle; simpl; [reflexivity|].
  change (Next s) with (iter.SliceIter_Next s).
  rewrite (SliceIter_exhausted s Hle). simpl. apply IH, Hle.
Qed.

Lemma read_Next_done (q : ndjson.readProvidersResponseIter (iter.JSONIter R D)) :
  iter.done (ndjson.r_iter q) = true ->
  fst (ndjson.readProvidersResponseIter_Next q) = (None, false, None).
Proof.
  intros Hd. unfold ndjson.readProvidersResponseIter_Next.
  change (Next (ndjson.r_iter q))
    with (iter.JSONIter_Next (T := UnknownProviderRecord) (ndjson.r_iter q)).
  rewrite (JSONIter_Next_done _ Hd). reflexivity.
Qed.

Lemma writeRequest_Next_done
  (q : ndjson.writeProvidersRequestIter (iter.JSONIter R D)) :
  iter.done (ndjson.wq_iter q) = true ->
  fst (ndjson.writeProvidersRequestIter_Next q) = (None, false, None).
Proof.
  intros Hd. unfold ndjson.writeProvidersRequestIter_Next.
  change (Next (ndjson.wq_iter q))
    with (iter.JSONIter_Next (T := UnknownProviderRecord) (ndjson.wq_iter q)).
  rewrite (JSONIter_Next_done _ Hd). reflexivity.
Qed.

Lemma writeResponse_Next_done
  (q : ndjson.writeProvidersResponseIter (iter.JSONIter R D)) :
  iter.done (ndjson.wr_iter q) = true ->
  fst (ndjson.writeProvidersResponseIter_Next q) = (None, false, None).
Proof.
  intros Hd. unfold ndjson.writeProvidersResponseIter_Next.
  change (Next (ndjson.wr_iter q))
    with (iter.JSONIter_Next (T := UnknownProviderRecord) (ndjson.wr_iter q)).
  rewrite (JSONIter_Next_done _ Hd). reflexivity.
Qed.

(** The inner pull of a dispatching decoder was terminal: the stream
    iterator inside is done from then on. *)
Lemma inner_terminal_done (j : iter.JSONIter R D) evs :
  terminal (fst (iter.JSONIter_Next (T := UnknownProviderRecord) j)) = true ->
  iter.done
    (runs.run (T := UnknownProviderRecord) evs
       (snd (iter.JSONIter_Next (T := UnknownProviderRecord) j))) = true.
Proof.
  intros Ht.
  destruct (iter.JSONIter_Next (T := UnknownProviderRecord) j) as [r j'] eqn:E.
  simpl in *.
  exact (proj1 (run_done (T := UnknownProviderRecord) evs j'
                  (JSONIter_terminal_done (T := UnknownProviderRecord)
                     j r j' E Ht))).
Qed.

(** C2 (amended).  Once [Next] of a sequence iterator or of a stream
    iterator has returned a terminal result, every later call returns the
    zero value, [false] and a nil error.  For the three schema-dispatching
    decoders the same holds when the terminal result comes from the inner
    stream iterator (exhaustion, an envelope that does not decode,
    cancellation); their result is then terminal too. *)
Theorem terminal_then_empty_forever :
  (forall (s : iter.SliceIter T) r s',
      iter.SliceIter_Next s = (r, s') -> terminal r = true ->
      forall n, fst (iter.SliceIter_Next (runs.NextN n s'))
                = (zero, false, None))
  /\ (forall (j : iter.JSONIter R D) r j',
      iter.JSONIter_Next (T := T) j = (r, j') -> terminal r = true ->
      forall evs, fst (iter.JSONIter_Next (T := T) (runs.run (T := T) evs j'))
                  = (zero, false, None))
  /\ (forall p : ndjson.readProvidersResponseIter (iter.JSONIter R D),
      terminal (fst (iter.JSONIter_Next (T := UnknownProviderRecord)
                      (ndjson.r_iter p))) = true ->
      terminal (fst (ndjson.readProvidersResponseIter_Next p)) = true /\
      forall evs,
        fst (ndjson.readProvidersResponseIter_Next
               (runs.run_read evs
                  (snd (ndjson.readProvidersResponseIter_Next p))))
        = (None, false, None))
  /\ (forall p : ndjson.writeProvidersRequestIter (iter.JSONIter R D),
      terminal (fst (iter.JSONIter_Next (T := UnknownProviderRecord)
                      (ndjson.wq_iter p))) = true ->
      terminal (fst (ndjson.writeProvidersRequestIter_Next p)) = true /\
      forall evs,
        fst (ndjson.writeProvidersRequestIter_Next
               (runs.run_writeRequest evs
                  (snd (ndjson.writeProvidersRequestIter_Next p))))
        = (None, false, None))
  /\ (forall p : ndjson.writeProvidersResponseIter (iter.JSONIter R D),
      terminal (fst (iter.JSONIter_Next (T := UnknownProviderRecord)
                      (ndjson.wr_iter p))) = true ->
      terminal (fst (ndjson.writeProvidersResponseIter_Next p)) = true /\
      forall evs,
        fst (ndjson.writeProvidersResponseIter_Next
               (runs.run_writeResponse evs
                  (snd (ndjson.writeProvidersResponseIter_Next p))))
        = (None, false, None)).
Proof.
  split; [|split; [|split; [|split]]].
  - intros s r s' E Ht n.
    pose proof (SliceIter_terminal s r s' E Ht) as Hle.
    rewrite (SliceIter_stays_exhausted n s' Hle).
    rewrite (SliceIter_exhausted s' Hle). reflexivity.
  - intros j r j' E Ht evs.
    apply JSONIter_after_done. exact (JSONIter_terminal_done j r j' E Ht).
  - intros p Ht. split.
    + destruct (iter.JSONIter_Next (T := UnknownProviderRecord)
                (ndjson.r_iter p)) as [[[v ok] err] it] eqn:E.
      rewrite (read_of_terminal p v ok err it E Ht). reflexivity.
    + intros evs. apply read_Next_done.
      rewrite run_read_inner, (read_inner p).
      apply inner_terminal_done. exact Ht.
  - intros p Ht. split.
    + destruct (iter.JSONIter_Next (T := UnknownProviderRecord)
                (ndjson.wq_iter p)) as [[[v ok] err] it] eqn:E.
      rewrite (writeRequest_of_terminal p v ok err it E Ht). reflexivity.
    + intros evs. apply writeRequest_Next_done.
      rewrite run_writeRequest_inner, (writeRequest_inner p).
      apply inner_terminal_done. exact Ht.
  - intros p Ht. split.
    + destruct (iter.JSONIter_Next (T := UnknownProviderRecord)
                (ndjson.wr_iter p)) as [[[v ok] err] it] eqn:E.
      rewrite (writeResponse_of_terminal p v ok err it E Ht). reflexivity.
    + intros evs. apply writeResponse_Next_done.
      rewrite run_writeResponse_inner, (writeResponse_inner p).
      apply inner_terminal_done. exact Ht.
Qed.

End PostTerminal.

(** ** Cancellation *)

Section Cancellation.
Context {R D T : Type} `{Zero T} `{JSONDecode D T}.

(** C5.  On a live stream iterator the context is asked before [Decode]:
    when it reports a cancellation, [Next] returns that error, with the zero
    value, releases the stream and leaves the decoder untouched; a decode
    is attempted only when the context reports none. *)
Theorem cancellation_checked_before_decode (j : iter.JSONIter R D) :
  iter.done j = false ->
  (forall e, context.Err (iter.ctx j) = Some e ->
     iter.JSONIter_Next (T := T) j = ((zero, true, Some e), iter.close j) /\
     released j (iter.close j) /\
     iter.Decoder (iter.close j) = iter.Decoder j)
  /\ (context.Err (iter.ctx j) = None ->
      iter.Decoder (snd (iter.JSONIter_Next (T := T) j))
      = snd (Decode (iter.Decoder j) (zero : T))).
Proof.
  intros Hd. split.
  - intros e He. split; [|split].
    + unfold iter.JSONIter_Next. rewrite Hd, He. reflexivity.
    + split; [apply close_done|apply close_Reader].
    + apply close_Decoder.
  - intros Hc. unfold iter.JSONIter_Next. rewrite Hd, Hc.
    destruct (Decode (iter.Decoder j) zero) as [[v err] d]; simpl.
    destruct (errors.Is err EOF); [apply close_Decoder|].
    destruct err; [apply close_Decoder|reflexivity].
Qed.

End Cancellation.

(** ** Schema dispatch *)

Section SchemaDispatch.
Context `{Package} {S : Type} `{Iter S UnknownProviderRecord}.




End SchemaDispatch.

(** ** Errors of the inner iterator *)

Section StreamErrors.
Context {R D T : Type} `{Zero T} `{JSONDecode D T}.

Lemma JSONIter_error_hasMore (j : iter.JSONIter R D) v ok e j' :
  iter.JSONIter_Next (T := T) j = ((v, ok, Some e), j') -> ok = true.
Proof.
  unfold iter.JSONIter_Next.
  destruct (iter.done j); [discriminate|].
  destruct (context.Err (iter.ctx j)); [congruence|].
  destruct (Decode (iter.Decoder j) zero) as [[v' err] d].
  destruct (errors.Is err EOF); [discriminate|].
  destruct err; congruence.
Qed.

End StreamErrors.

Section InnerErrors.
Context {R D T : Type} `{Zero T} `{JSONDecode D T}.
Context `{Package} `{JSONDecode D UnknownProviderRecord}.
Context {S : Type} `{Iter S UnknownProviderRecord}.

(** C9.  [JSONIter.Next] never returns an error with [hasMore = false].
    The three dispatching decoders test [hasMore] first: a result
    [(v, false, err)] of an inner iterator becomes clean exhaustion whatever
    [err] is.  Over a stream iterator every error of the inner pull therefore
    reaches the decoder's second test and is returned. *)
Theorem inner_error_comes_with_hasMore :
  (forall (j : iter.JSONIter R D) v ok e j',
      iter.JSONIter_Next (T := T) j = ((v, ok, Some e), j') -> ok = true)
  /\ (forall (s : S) v err it,
      Next s = ((v, false, err), it) ->
      fst (ndjson.readProvidersResponseIter_Next {| ndjson.r_iter := s |})
      = (None, false, None) /\
      fst (ndjson.writeProvidersRequestIter_Next {| ndjson.wq_iter := s |})
      = (None, false, None) /\
      fst (ndjson.writeProvidersResponseIter_Next {| ndjson.wr_iter := s |})
      = (None, false, None))
  /\ (forall (j : iter.JSONIter R D) v ok e j',
      iter.JSONIter_Next (T := UnknownProviderRecord) j
      = ((v, ok, Some e), j') ->
      fst (ndjson.readProvidersResponseIter_Next {| ndjson.r_iter := j |})
      = (None, false, Some e) /\
      fst (ndjson.writeProvidersRequestIter_Next {| ndjson.wq_iter := j |})
      = (None, false, Some e) /\
      fst (ndjson.writeProvidersResponseIter_Next {| ndjson.wr_iter := j |})
      = (None, false, Some e)).
Proof.
  split; [|split].
  - intros j v ok e j'. apply JSONIter_error_hasMore.
  - intros s v err it E.
    dispatch_unfold; simpl.
    rewrite E. auto.
  - intros j v ok e j' E.
    pose proof (JSONIter_error_hasMore j v ok e j' E) as Hok. subst ok.
    dispatch_unfold; simpl.
    change (Next j) with (iter.JSONIter_Next (T := UnknownProviderRecord) j).
    rewrite E. auto.
Qed.

End InnerErrors.

(** ** The routing client *)

Section ClientFacts.
Context {R D : Type}.
Context `{Package} `{Crypto} `{!Collaborators R}.
Context `{!JSONReader R D}.
Context `{!JSONDecode D UnknownProviderRecord}.
Context `{!JSONDecode D ReadProvidersResponse}.
Context `{!JSONDecode D WriteProvidersResponse}.
Implicit Types (c : client.client (R := R)) (ctx : context.Context).

Lemma fst_bind_emit {A : Type} (e : client.Effect) (k : unit -> client.M A) :
  fst (client.bind (client.emit e) k) = fst (k tt).
Proof. unfold client.bind, client.emit. destruct (k tt); reflexivity. Qed.

Lemma snd_bind_emit {A : Type} (e : client.Effect) (k : unit -> client.M A) :
  snd (client.bind (client.emit e) k) = e :: snd (k tt).
Proof. unfold client.bind, client.emit. destruct (k tt); reflexivity. Qed.

Lemma fst_bind {A B : Type} (m : client.M A) (k : A -> client.M B) :
  fst (client.bind m k) = fst (k (fst m)).
Proof. unfold client.bind. destruct m as [a l]. simpl. destruct (k a); reflexivity. Qed.

Lemma fst_deferred (m : client.measurement)
  (provs : option (client.ProvsIter (R := R) (D := D))) err :
  fst (client.FindProviders_deferred m provs err) = (provs, err).
Proof. unfold client.FindProviders_deferred. rewrite fst_bind_emit. reflexivity. Qed.

(** C10.  [New] configures the client with the options and then checks the
    identity: with an identity and a non-empty peer ID that does not match
    the identity's public key it returns no client and the error
    "identity does not match provider"; without an identity or with an empty
    peer ID the check is skipped and the configured client is returned. *)
Theorem New_checks_identity_against_peer_ID
  (h : client.httpClient (R := R)) (clk : client.Clock) (baseURL : string)
  (opts : list client.option_) :
  (forall k,
      client.identity (client.configure opts (client.defaults h clk baseURL))
      = Some k ->
      client.Size
        (client.peerID (client.configure opts (client.defaults h clk baseURL)))
      <> 0 ->
      MatchesPublicKey
        (client.peerID (client.configure opts (client.defaults h clk baseURL)))
        (GetPublic k) = false ->
      client.New h clk baseURL opts
      = (None, Some (errors.New "identity does not match provider")))
  /\ (client.identity (client.configure opts (client.defaults h clk baseURL))
      = None \/
      client.Size
        (client.peerID (client.configure opts (client.defaults h clk baseURL)))
      = 0 ->
      client.New h clk baseURL opts
      = (Some (client.configure opts (client.defaults h clk baseURL)), None)).
Proof.
  unfold client.New. split.
  - intros k Hk Hsz Hm. rewrite Hk, Hm.
    apply Nat.eqb_neq in Hsz. rewrite Hsz. reflexivity.
  - intros [Hn|Hz].
    + rewrite Hn. reflexivity.
    + rewrite Hz. simpl.
      destruct (client.identity _); reflexivity.
Qed.

(** C8.  Without an identity, or with an empty peer ID, [ProvideBitswap]
    returns a configuration error and has no effect at all: nothing is
    signed and no request is made.  Conversely, whenever a call has any
    effect (signing, the hook, the HTTP request), both were configured. *)
Theorem ProvideBitswap_needs_identity_and_peer_ID c ctx
  (keys : list Cid) (ttl : Duration) :
  (client.identity c = None ->
     client.ProvideBitswap c ctx keys ttl
     = ((0%Z, Some (errors.New
                      "cannot provide Bitswap records without an identity")),
        []))
  /\ (client.identity c <> None -> client.Size (client.peerID c) = 0 ->
      client.ProvideBitswap c ctx keys ttl
      = ((0%Z, Some (errors.New
                       "cannot provide Bitswap records without a peer ID")),
         []))
  /\ (snd (client.ProvideBitswap c ctx keys ttl) <> [] ->
      client.identity c <> None /\ client.Size (client.peerID c) <> 0).
Proof.
  unfold client.ProvideBitswap. split; [|split].
  - intros Hn. rewrite Hn. reflexivity.
  - intros Hi Hz. destruct (client.identity c); [|congruence].
    rewrite Hz. reflexivity.
  - destruct (client.identity c) as [k|]; [|simpl; congruence].
    destruct (client.Size (client.peerID c)) eqn:Hsz; simpl.
    + congruence.
    + intros _. split; [discriminate|lia].
Qed.

End ClientFacts.

Section ClientCalls.
Context {R D : Type}.
Context `{Package} `{Crypto} `{!Collaborators R}.
Context `{!JSONReader R D}.
Context `{!JSONDecode D UnknownProviderRecord}.
Context `{!JSONDecode D ReadProvidersResponse}.
Context `{!JSONDecode D WriteProvidersResponse}.
Implicit Types (c : client.client (R := R)) (ctx : context.Context).

(** C3 (amended).  On a 404 response [FindProviders] closes the body and
    returns a nil error together with a nil iterator: there is no iterator
    value, and calling [Next()] on the result panics.  The effects are the
    request, the closing of the body and one recorded measurement without
    a length. *)
Theorem FindProviders_404_returns_nil_iterator c ctx (key : Cid)
  (req : http.Request) (resp : http.Response R) :
  NewRequestWithContext ctx http.MethodGet
    (client.baseURL c ++ ProvidePath ++ key)%string None = inl req ->
  client.httpClient_ c req = inl resp ->
  http.StatusCode resp = http.StatusNotFound ->
  fst (client.FindProviders (D := D) c ctx key) = (None, None) /\
  client.ProvsIter_Next (fst (fst (client.FindProviders (D := D) c ctx key)))
  = client.Panics /\
  exists m, snd (client.FindProviders (D := D) c ctx key)
            = [client.Do req; client.BodyClose; client.Recorded m] /\
            client.m_length m = None /\
            client.m_statusCode m = http.StatusNotFound.
Proof.
  intros Hreq Hdo Hst.
  assert (E : client.FindProviders (D := D) c ctx key
              = ((None, None),
                 [client.Do req; client.BodyClose;
                  client.Recorded
                    {| client.m_name := "FindProviders";
                       client.m_host := http.Host req;
                       client.m_err := None;
                       client.m_latency :=
                         client.Since (client.clock c)
                           (client.Now (client.clock c));
                       client.m_statusCode := http.StatusCode resp;
                       client.m_length := None |}])).
  { unfold client.FindProviders. rewrite Hreq. simpl. rewrite Hdo. simpl.
    rewrite Hst. reflexivity. }
  rewrite E. simpl. repeat split.
  eexists. split; [reflexivity|]. simpl. auto.
Qed.

(** C7 (amended).  [FindProviders] goes on to the content type and the body
    exactly when the status is 200: the media type selects the batch
    decoding into a sequence iterator, the dispatching decoder over the live
    body, or an error.  Every status other than 200 and 404, the other 2xx
    codes included, gives no iterator and the error that [httpError] builds
    for that status code, given the body of the response; 404 gives
    neither an iterator nor an error. *)
Theorem FindProviders_status_dispatch c ctx (key : Cid)
  (req : http.Request) (resp : http.Response R) :
  NewRequestWithContext ctx http.MethodGet
    (client.baseURL c ++ ProvidePath ++ key)%string None = inl req ->
  client.httpClient_ c req = inl resp ->
  (http.StatusCode resp <> http.StatusOK ->
   http.StatusCode resp <> http.StatusNotFound ->
   exists body : io.ReadCloser R,
     io.content body = io.content (http.Body resp) /\
     fst (client.FindProviders (D := D) c ctx key)
     = (None, Some (httpError (http.StatusCode resp) body)))
  /\ (http.StatusCode resp = http.StatusOK ->
      fst (client.FindProviders (D := D) c ctx key)
      = match ParseMediaType (http.Header_Get resp "Content-Type") with
        | (_, Some err) => (None, Some (Wrap "parsing Content-Type: " err))
        | (mediaType, None) =>
            if String.eqb mediaType client.mediaTypeJSON then
              let '(parsedResp, err, _) :=
                Decode (NewDecoder (io.Closer (http.Body resp)))
                       (zero : ReadProvidersResponse) in
              (Some (client.OfSlice (iter.FromSlice (Providers parsedResp))),
               err)
            else if String.eqb mediaType client.mediaTypeNDJSON then
              (Some (client.OfNDJSON
                       (ndjson.NewReadProvidersResponseIter ctx
                          (io.Closer (http.Body resp)))), None)
            else (None, Some (errors.New "unknown content type"))
        end)
  /\ (http.StatusCode resp = http.StatusNotFound ->
      fst (client.FindProviders (D := D) c ctx key) = (None, None)).
Proof.
  intros Hreq Hdo. split; [|split].
  - intros H200 H404. unfold client.FindProviders. rewrite Hreq.
    rewrite fst_bind_emit. rewrite Hdo.
    apply Z.eqb_neq in H200. apply Z.eqb_neq in H404.
    rewrite H404, H200.
    exists (io.Close (http.Body resp)). split; reflexivity.
  - intros H200. unfold client.FindProviders. rewrite Hreq.
    rewrite fst_bind_emit. rewrite Hdo. rewrite H200.
    change (http.StatusOK =? http.StatusNotFound)%Z with false.
    change (negb (http.StatusOK =? http.StatusOK)%Z) with false.
    cbv iota.
    destruct (ParseMediaType (http.Header_Get resp "Content-Type"))
      as [mediaType [err|]].
    + rewrite fst_bind_emit, fst_deferred. reflexivity.
    + destruct (String.eqb mediaType client.mediaTypeJSON).
      * destruct (Decode (NewDecoder (io.Closer (http.Body resp))) zero)
          as [[parsedResp err] d].
        rewrite fst_bind_emit, fst_deferred. reflexivity.
      * destruct (String.eqb mediaType client.mediaTypeNDJSON).
        -- rewrite fst_deferred. reflexivity.
        -- rewrite !fst_bind_emit, fst_deferred. reflexivity.
  - intros H404. unfold client.FindProviders. rewrite Hreq.
    rewrite fst_bind_emit. rewrite Hdo, H404. reflexivity.
Qed.

End ClientCalls.

(** Every path of [provideSignedBitswapRecord]. *)
Ltac provide_paths :=
  unfold client.provideSignedBitswapRecord, client.bind, client.emit,
    client.ret;
  repeat match goal with
         | |- context [MarshalJSONBytes ?r] =>
             destruct (MarshalJSONBytes r) as [?b [?err|]]
         | |- context [NewRequestWithContext ?a ?b ?c ?d] =>
             destruct (NewRequestWithContext a b c d) as [?req|?err]
         | |- context [client.httpClient_ ?c ?r] =>
             let E := fresh "Hdo" in
             destruct (client.httpClient_ c r) as [?resp|?err] eqn:E
         | |- context [(?a =? ?b)%Z] => destruct (a =? b)%Z
         | |- context [Decode ?d ?z] =>
             destruct (Decode d z) as [[? [?err|]] ?]
         | |- context [?a =? 1] => destruct (a =? 1)
         | |- context [nth 0 ?l None] =>
             destruct (nth 0 l None) as [[?p|?v|?u]|]
         | |- context [rAdvisoryTTL ?v] => destruct (rAdvisoryTTL v)
         | _ => progress simpl
         end.

Section Provide.
Context {R D : Type}.
Context `{Package} `{Crypto} `{!Collaborators R}.
Context `{!JSONReader R D}.
Context `{!JSONDecode D UnknownProviderRecord}.
Context `{!JSONDecode D ReadProvidersResponse}.
Context `{!JSONDecode D WriteProvidersResponse}.
Implicit Types (c : client.client (R := R)) (ctx : context.Context).

(** What [provideSignedBitswapRecord] returns on a 200 response whose body
    decodes into [provideResult]. *)
Lemma provideSigned_on_200 c ctx (bswp : WriteBitswapProviderRecord)
  b httpReq (resp : http.Response R) provideResult d :
  MarshalJSONBytes {| wqProviders := [Some (WriteBitswap bswp)] |}
  = (b, None) ->
  NewRequestWithContext ctx http.MethodPost
    (client.baseURL c ++ ProvidePath)%string (Some b) = inl httpReq ->
  client.httpClient_ c httpReq = inl resp ->
  http.StatusCode resp = http.StatusOK ->
  Decode (NewDecoder (io.Closer (http.Body resp)))
         (zero : WriteProvidersResponse) = (provideResult, None, d) ->
  fst (client.provideSignedBitswapRecord (D := D) c ctx bswp)
  = if negb (List.length (ProvideResults provideResult) =? 1) then
      (0%Z, Some (client.expected_1_result
                    (List.length (ProvideResults provideResult))))
    else
      match nth 0 (ProvideResults provideResult) None with
      | Some (WriteBitswapResponse v) =>
          match rAdvisoryTTL v with
          | Some ttl => (ttl, None)
          | None => (0%Z, None)
          end
      | _ => (0%Z, Some (errors.New "expected AdvisoryTTL field"))
      end.
Proof.
  intros Hm Hreq Hdo Hst Hdec.
  unfold client.provideSignedBitswapRecord.
  rewrite Hm, Hreq. rewrite fst_bind_emit. rewrite Hdo, Hst.
  change (negb (http.StatusOK =? http.StatusOK)%Z) with false. cbv iota.
  rewrite Hdec.
  destruct (negb (List.length (ProvideResults provideResult) =? 1)).
  - reflexivity.
  - destruct (nth 0 (ProvideResults provideResult) None) as [[p|v|u]|];
      try reflexivity.
    destruct (rAdvisoryTTL v); reflexivity.
Qed.

(** An error of [provideSignedBitswapRecord] comes with a zero duration. *)
Lemma provideSigned_error_with_zero c ctx (bswp : WriteBitswapProviderRecord) :
  snd (fst (client.provideSignedBitswapRecord (D := D) c ctx bswp)) <> None ->
  fst (fst (client.provideSignedBitswapRecord (D := D) c ctx bswp)) = 0%Z.
Proof.
  provide_paths;
    intros Hn; solve [reflexivity | exfalso; apply Hn; reflexivity].
Qed.

(** [ProvideBitswap] returns what the submission of the signed record
    returned. *)
Lemma ProvideBitswap_returns_submission c ctx k (keys : list Cid)
  (ttl : Duration) signed :
  client.identity c = Some k ->
  client.Size (client.peerID c) <> 0 ->
  Sign {| wProtocol := "transport-bitswap";
          wSchema := SchemaBitswap;
          wSignature := "";
          wPayload :=
            {| Keys := keys;
               AdvisoryTTL := Some ttl;
               Timestamp := Some (client.Now (client.clock c));
               ID := Some (client.peerID c);
               Addrs := client.addrs c |} |}
       (client.peerID c) k = (signed, None) ->
  fst (client.ProvideBitswap (D := D) c ctx keys ttl)
  = fst (client.provideSignedBitswapRecord (D := D) c ctx
           match client.afterSignCallback c with
           | Some callback => callback signed
           | None => signed
           end).
Proof.
  intros Hk Hsz Hsign.
  unfold client.ProvideBitswap. rewrite Hk.
  apply Nat.eqb_neq in Hsz. rewrite Hsz.
  rewrite fst_bind_emit. rewrite map_id. rewrite Hsign.
  cbv beta iota zeta. rewrite fst_bind.
  assert (Hres :
    forall bswp,
      fst (let '(advisoryTTL, err) :=
             fst (client.provideSignedBitswapRecord (D := D) c ctx bswp) in
           match err with
           | Some err => client.ret (0%Z, Some err)
           | None => client.ret (advisoryTTL, err)
           end)
      = fst (client.provideSignedBitswapRecord (D := D) c ctx bswp)).
  { intros bswp.
    pose proof (provideSigned_error_with_zero c ctx bswp) as Hz.
    destruct (fst (client.provideSignedBitswapRecord (D := D) c ctx bswp))
      as [advisoryTTL [err|]]; [|reflexivity].
    simpl in Hz. rewrite Hz by discriminate. reflexivity. }
  destruct (client.afterSignCallback c) as [callback|].
  - rewrite fst_bind_emit. cbn [fst client.ret]. rewrite fst_bind. apply Hres.
  - cbn [fst client.ret]. rewrite fst_bind. apply Hres.
Qed.

(** C6 (amended).  The one result is unwrapped after a response with status
    200, and only then.  With status 200 and a body that decodes: a number
    of results other than one gives the error "expected 1 result but got N";
    one result that is not the bitswap response variant gives "expected
    AdvisoryTTL field"; one bitswap response gives its advisory TTL, zero
    when it is absent, and no error.  With any other status, the other 2xx
    codes included, the result is a zero duration and the error [httpError]
    builds from the status and the body, whatever the body would decode
    to.  [ProvideBitswap] returns what the signed record's submission
    returned. *)
Theorem ProvideBitswap_unwraps_one_result_only_on_200 c ctx
  (bswp : WriteBitswapProviderRecord)
  b httpReq (resp : http.Response R) :
  MarshalJSONBytes {| wqProviders := [Some (WriteBitswap bswp)] |}
  = (b, None) ->
  NewRequestWithContext ctx http.MethodPost
    (client.baseURL c ++ ProvidePath)%string (Some b) = inl httpReq ->
  client.httpClient_ c httpReq = inl resp ->
  (http.StatusCode resp <> http.StatusOK ->
   fst (client.provideSignedBitswapRecord (D := D) c ctx bswp)
   = (0%Z, Some (httpError (http.StatusCode resp) (http.Body resp))))
  /\ (http.StatusCode resp = http.StatusOK ->
      forall provideResult d,
      Decode (NewDecoder (io.Closer (http.Body resp)))
             (zero : WriteProvidersResponse) = (provideResult, None, d) ->
      (List.length (ProvideResults provideResult) <> 1 ->
       fst (client.provideSignedBitswapRecord (D := D) c ctx bswp)
       = (0%Z,
          Some (errors.New
                  ("expected 1 result but got " ++
                   NilZero.string_of_uint
                     (Nat.to_uint
                        (List.length (ProvideResults provideResult))))%string)))
      /\ (forall r, ProvideResults provideResult = [r] ->
          (forall v, r <> Some (WriteBitswapResponse v)) ->
          fst (client.provideSignedBitswapRecord (D := D) c ctx bswp)
          = (0%Z, Some (errors.New "expected AdvisoryTTL field")))
      /\ (forall v,
          ProvideResults provideResult = [Some (WriteBitswapResponse v)] ->
          fst (client.provideSignedBitswapRecord (D := D) c ctx bswp)
          = (match rAdvisoryTTL v with Some ttl => ttl | None => 0%Z end,
             None)))
  /\ (forall k keys ttl signed,
      client.identity c = Some k ->
      client.Size (client.peerID c) <> 0 ->
      Sign {| wProtocol := "transport-bitswap";
              wSchema := SchemaBitswap;
              wSignature := "";
              wPayload :=
                {| Keys := keys;
                   AdvisoryTTL := Some ttl;
                   Timestamp := Some (client.Now (client.clock c));
                   ID := Some (client.peerID c);
                   Addrs := client.addrs c |} |}
           (client.peerID c) k = (signed, None) ->
      bswp = match client.afterSignCallback c with
             | Some callback => callback signed
             | None => signed
             end ->
      fst (client.ProvideBitswap (D := D) c ctx keys ttl)
      = fst (client.provideSignedBitswapRecord (D := D) c ctx bswp)).
Proof.
  intros Hm Hreq Hdo. split; [|split].
  - intros Hst. apply Z.eqb_neq in Hst.
    unfold client.provideSignedBitswapRecord.
    rewrite Hm, Hreq. rewrite fst_bind_emit. rewrite Hdo, Hst. reflexivity.
  - intros Hst provideResult d Hdec.
    pose proof (provideSigned_on_200 c ctx bswp b httpReq resp provideResult d
                  Hm Hreq Hdo Hst Hdec) as E.
    split; [|split].
    + intros Hn. rewrite E. apply Nat.eqb_neq in Hn. rewrite Hn. reflexivity.
    + intros r Hr Hnot. rewrite E, Hr. simpl.
      destruct r as [[p|v|u]|]; try reflexivity.
      exfalso. exact (Hnot v eq_refl).
    + intros v Hr. rewrite E, Hr. simpl.
      destruct (rAdvisoryTTL v); reflexivity.
  - intros k keys ttl signed Hk Hsz Hsign ->.
    apply (ProvideBitswap_returns_submission c ctx k keys ttl signed Hk Hsz
             Hsign).
Qed.

End Provide.

(** ** Draining a sequence iterator *)

Section SliceDrain.
Context {T : Type} `{Zero T}.

Lemma skipn_nth (l : list T) : forall i d,
  i < List.length l -> skipn i l = nth i l d :: skipn (S i) l.
Proof.
  induction l as [|x l IH]; intros i d Hi; simpl in Hi; [lia|].
  destruct i as [|i]; [reflexivity|].
  simpl. apply IH. lia.
Qed.

Lemma SliceIter_Next_inside (s : iter.SliceIter T) :
  iter.i s < List.length (iter.Slice s) ->
  iter.SliceIter_Next s
  = ((nth (iter.i s) (iter.Slice s) zero, true, None),
     {| iter.Slice := iter.Slice s; iter.i := S (iter.i s) |}).
Proof.
  intros Hi. unfold iter.SliceIter_Next.
  destruct (Nat.leb_spec (List.length (iter.Slice s)) (iter.i s));
    [lia|reflexivity].
Qed.

Lemma SliceIter_Next_outside (s : iter.SliceIter T) :
  List.length (iter.Slice s) <= iter.i s ->
  iter.SliceIter_Next s = ((zero, false, None), s).
Proof.
  intros Hi. unfold iter.SliceIter_Next.
  destruct (Nat.leb_spec (List.length (iter.Slice s)) (iter.i s));
    [reflexivity|lia].
Qed.

Lemma pulls_SliceIter_inside n : forall s : iter.SliceIter T,
  iter.i s + n <= List.length (iter.Slice s) ->
  traces.pulls n s
  = (map (fun v => (v, true, None))
         (firstn n (skipn (iter.i s) (iter.Slice s))),
     {| iter.Slice := iter.Slice s; iter.i := iter.i s + n |}).
Proof.
  induction n as [|n IH]; intros s Hn.
  - simpl. rewrite Nat.add_0_r. destruct s; reflexivity.
  - simpl. change (Next s) with (iter.SliceIter_Next s).
    rewrite (SliceIter_Next_inside s) by lia.
    rewrite IH by (simpl; lia). simpl.
    rewrite (skipn_nth (iter.Slice s) (iter.i s) zero) by lia. simpl.
    f_equal. f_equal. lia.
Qed.

(** X1.  Pulling a fresh sequence iterator as many times as the slice is
    long yields the elements of the slice, in order, each with
    [hasMore = true] and no error; the next pull reports exhaustion and
    changes nothing. *)
Theorem SliceIter_yields_the_slice_in_order (l : list T) :
  traces.pulls (List.length l) (iter.FromSlice l)
  = (map (fun v => (v, true, None)) l,
     {| iter.Slice := l; iter.i := List.length l |})
  /\ iter.SliceIter_Next {| iter.Slice := l; iter.i := List.length l |}
     = ((zero, false, None), {| iter.Slice := l; iter.i := List.length l |}).
Proof.
  split.
  - rewrite pulls_SliceIter_inside by (simpl; lia). simpl.
    rewrite firstn_all. reflexivity.
  - apply SliceIter_Next_outside. simpl. lia.
Qed.

(** X2.  Whatever the state and the number of pulls: the slice is never
    modified, no result carries an error, each yielded element moves the
    cursor by exactly one, and a cursor within the slice stays within it. *)
Theorem SliceIter_pulls_invariant n : forall s : iter.SliceIter T,
  iter.Slice (snd (traces.pulls n s)) = iter.Slice s
  /\ Forall (fun r : Result T => snd r = None) (fst (traces.pulls n s))
  /\ iter.i (snd (traces.pulls n s))
     = iter.i s
       + List.length (filter (fun r : Result T => snd (fst r))
                        (fst (traces.pulls n s)))
  /\ (iter.i s <= List.length (iter.Slice s) ->
      iter.i (snd (traces.pulls n s)) <= List.length (iter.Slice s)).
Proof.
  induction n as [|n IH]; intros s.
  - simpl. repeat split; auto.
  - simpl. change (Next s) with (iter.SliceIter_Next s).
    destruct (Nat.leb_spec (List.length (iter.Slice s)) (iter.i s)) as [Ho|Hi].
    + rewrite (SliceIter_Next_outside s Ho).
      destruct (traces.pulls n s) as [rs s'] eqn:E.
      specialize (IH s). rewrite E in IH. simpl in *.
      destruct IH as (Hs & Hf & Hc & Hb).
      split; [exact Hs|split; [|split]].
      * constructor; [reflexivity|exact Hf].
      * exact Hc.
      * exact Hb.
    + rewrite (SliceIter_Next_inside s Hi).
      destruct (traces.pulls n
                  {| iter.Slice := iter.Slice s; iter.i := S (iter.i s) |})
        as [rs s'] eqn:E.
      specialize (IH {| iter.Slice := iter.Slice s; iter.i := S (iter.i s) |}).
      rewrite E in IH. simpl in *.
      destruct IH as (Hs & Hf & Hc & Hb).
      split; [exact Hs|split; [|split]].
      * constructor; [reflexivity|exact Hf].
      * lia.
      * intros _. apply Hb. lia.
Qed.

End SliceDrain.

(** ** Draining a stream iterator *)

Section PullsGeneric.
Context {S T : Type} `{Iter S T}.

Lemma pulls_app n m : forall s : S,
  traces.pulls (n + m) s
  = (fst (traces.pulls n s) ++ fst (traces.pulls m (snd (traces.pulls n s))),
     snd (traces.pulls m (snd (traces.pulls n s)))).
Proof.
  induction n as [|n IH]; intros s; simpl.
  - destruct (traces.pulls m s); reflexivity.
  - destruct (Next s) as [r s1]. rewrite IH.
    destruct (traces.pulls n s1) as [rs s2]. simpl. reflexivity.
Qed.

Lemma pulls_one (s : S) :
  traces.pulls 1 s = ([fst (Next s)], snd (Next s)).
Proof. simpl. destruct (Next s); reflexivity. Qed.

End PullsGeneric.

Section ErrorChains.

Lemma Is_chain_refl (e : error) : errors.Is_chain e e = true.
Proof.
  assert (Hhead : forall a target rest,
            a = target ->
            (if errors.error_eq_dec a target then true else rest) = true).
  { intros a target rest ->.
    destruct (errors.error_eq_dec target target); [reflexivity|congruence]. }
  destruct e; apply Hhead; reflexivity.
Qed.

Lemma Is_chain_Wrap (p : string) (e target : error) :
  errors.Is_chain e target = true ->
  errors.Is_chain (Wrap p e) target = true.
Proof.
  intros Hi.
  change (errors.Is_chain (Wrap p e) target)
    with (if errors.error_eq_dec (Wrap p e) target then true
          else errors.Is_chain e target).
  destruct (errors.error_eq_dec (Wrap p e) target); [reflexivity|exact Hi].
Qed.

Lemma Is_chain_Wrap_EOF (p : string) (e : error) :
  errors.Is_chain (Wrap p e) EOF = errors.Is_chain e EOF.
Proof.
  change (errors.Is_chain (Wrap p e) EOF)
    with (if errors.error_eq_dec (Wrap p e) EOF then true
          else errors.Is_chain e EOF).
  destruct (errors.error_eq_dec (Wrap p e) EOF); [discriminate|reflexivity].
Qed.

End ErrorChains.

Section StreamDrain.
Context {R D T : Type} `{Zero T} `{JSONDecode D T}.
Implicit Types (j : iter.JSONIter R D).

Lemma Next_on_value j v d' :
  iter.done j = false ->
  context.Err (iter.ctx j) = None ->
  Decode (iter.Decoder j) (zero : T) = (v, None, d') ->
  iter.JSONIter_Next (T := T) j
  = ((v, true, None),
     {| iter.Decoder := d'; iter.Reader := iter.Reader j;
        iter.ctx := iter.ctx j; iter.done := false |}).
Proof.
  intros Hd Hc Hdec. unfold iter.JSONIter_Next. rewrite Hd, Hc, Hdec.
  simpl. reflexivity.
Qed.

Lemma pulls_Decodes (vs : list T) : forall j d',
  iter.done j = false ->
  context.Err (iter.ctx j) = None ->
  traces.Decodes (iter.Decoder j) vs d' ->
  traces.pulls (List.length vs) j
  = (map (fun v => (v, true, None)) vs,
     {| iter.Decoder := d'; iter.Reader := iter.Reader j;
        iter.ctx := iter.ctx j; iter.done := false |}).
Proof.
  induction vs as [|v vs IH]; intros j d' Hd Hc Hdec.
  - inversion Hdec; subst. simpl. destruct j; simpl in *; subst; reflexivity.
  - inversion Hdec as [|d0 v0 d1 vs0 d2 Hv Hrest]; subst. simpl.
    change (Next j) with (iter.JSONIter_Next (T := T) j).
    rewrite (Next_on_value j v d1 Hd Hc Hv).
    rewrite (IH {| iter.Decoder := d1; iter.Reader := iter.Reader j;
                   iter.ctx := iter.ctx j; iter.done := false |}
                d' eq_refl Hc Hrest).
    reflexivity.
Qed.

(** X3.  A live stream iterator, with no cancellation, over a decoder that
    holds the values [vs] and then reports the end of the stream: the pulls
    yield [vs] in order, each with [hasMore = true] and no error; the pull
    after them reports exhaustion without an error, sets [done] and closes
    the reader, once. *)
Theorem stream_yields_in_order_then_closes j (vs : list T) d' v e d3 :
  iter.done j = false ->
  context.Err (iter.ctx j) = None ->
  traces.Decodes (iter.Decoder j) vs d' ->
  Decode d' (zero : T) = (v, Some e, d3) ->
  errors.Is_chain e EOF = true ->
  fst (traces.pulls (List.length vs + 1) j)
  = map (fun v => (v, true, None)) vs ++ [(v, false, None)]
  /\ released j (snd (traces.pulls (List.length vs + 1) j))
  /\ io.closes (iter.Reader (snd (traces.pulls (List.length vs) j)))
     = io.closes (iter.Reader j).
Proof.
  intros Hd Hc Hdec Hend Heof.
  rewrite pulls_app, (pulls_Decodes vs j d' Hd Hc Hdec), pulls_one. simpl.
  change (Next ?x) with (iter.JSONIter_Next (T := T) x).
  unfold iter.JSONIter_Next at 1 2. simpl. rewrite Hc, Hend. simpl.
  rewrite Heof. simpl.
  split; [reflexivity|]. split; [|reflexivity].
  split; [apply close_done|]. rewrite close_Reader. reflexivity.
Qed.

(** X5.  Cancellation takes effect at the next pull, whatever is left
    unread: after any number of successful pulls, once the context is
    cancelled the next [Next] returns the cancellation error with the zero
    value, closes the reader and does not touch the decoder. *)
Theorem cancellation_preempts_unread_values j (vs : list T) d' e :
  iter.done j = false ->
  context.Err (iter.ctx j) = None ->
  traces.Decodes (iter.Decoder j) vs d' ->
  fst (iter.JSONIter_Next (T := T)
         (runs.cancelled e (snd (traces.pulls (List.length vs) j))))
  = (zero, true, Some e)
  /\ released j
       (snd (iter.JSONIter_Next (T := T)
               (runs.cancelled e (snd (traces.pulls (List.length vs) j)))))
  /\ iter.Decoder
       (snd (iter.JSONIter_Next (T := T)
               (runs.cancelled e (snd (traces.pulls (List.length vs) j)))))
     = d'.
Proof.
  intros Hd Hc Hdec.
  rewrite (pulls_Decodes vs j d' Hd Hc Hdec). simpl.
  unfold iter.JSONIter_Next, runs.cancelled, context.cancel. simpl.
  rewrite Hc. simpl.
  split; [reflexivity|]. split; [|apply close_Decoder].
  split; [apply close_done|]. rewrite close_Reader. reflexivity.
Qed.

(** X4.  A done iterator is frozen: whatever calls and cancellations
    follow, the decoder is never asked again and the reader is never
    closed again. *)
Theorem done_iterator_never_reads_or_closes j :
  iter.done j = true ->
  forall evs,
    iter.Decoder (runs.run (T := T) evs j) = iter.Decoder j /\
    iter.Reader (runs.run (T := T) evs j) = iter.Reader j /\
    iter.done (runs.run (T := T) evs j) = true.
Proof.
  intros Hd evs. revert j Hd.
  induction evs as [|ev evs IH]; intros j Hd; [simpl; auto|].
  change (runs.run (T := T) (ev :: evs) j)
    with (runs.run (T := T) evs (runs.step (T := T) j ev)).
  destruct ev as [|e]; simpl.
  - rewrite (JSONIter_Next_done j Hd). simpl. apply IH, Hd.
  - destruct (IH (runs.cancelled e j) Hd) as (? & ? & ?). auto.
Qed.

(** X6.  Where an error of [Next] comes from: either it is the context's
    error itself, returned with the zero value and without a decode, or it
    is the decoder's error wrapped as "json iterator: ...", which
    [errors.Is] still matches against the cause and which is never the end
    of the stream. *)
Theorem stream_error_provenance j (v : T) ok e' j' :
  iter.JSONIter_Next (T := T) j = ((v, ok, Some e'), j') ->
  (context.Err (iter.ctx j) = Some e' /\ v = zero /\
   iter.Decoder j' = iter.Decoder j)
  \/ (context.Err (iter.ctx j) = None /\
      exists e,
        snd (fst (Decode (iter.Decoder j) (zero : T))) = Some e /\
        e' = Wrap "json iterator: " e /\
        errors.Is_chain e' e = true /\
        errors.Is_chain e' EOF = false).
Proof.
  unfold iter.JSONIter_Next.
  destruct (iter.done j); [discriminate|].
  destruct (context.Err (iter.ctx j)) as [ctxErr|].
  - intros E; inversion E; subst. left.
    rewrite close_Decoder. auto.
  - destruct (Decode (iter.Decoder j) zero) as [[v0 err] d] eqn:Hdec.
    destruct (errors.Is err EOF) eqn:Heof; [discriminate|].
    destruct err as [e|]; [|discriminate].
    intros E; inversion E; subst. right. split; [reflexivity|].
    exists e. split; [reflexivity|]. split; [reflexivity|].
    split.
    + apply Is_chain_Wrap, Is_chain_refl.
    + rewrite Is_chain_Wrap_EOF. exact Heof.
Qed.

End StreamDrain.

(** ** Results of the dispatching decoders *)

Section DispatchResults.
Context `{Package} {S : Type} `{Iter S UnknownProviderRecord}.

(** X7.  Whatever the inner iterator returns, a dispatching decoder returns
    either a value with [hasMore = true] and no error, or no value with
    [hasMore = false]: an error never comes with a value or with
    [hasMore = true]. *)
Theorem dispatch_results_are_settled (s : S) :
  traces.settled
    (fst (ndjson.readProvidersResponseIter_Next {| ndjson.r_iter := s |}))
  = true
  /\ traces.settled
       (fst (ndjson.writeProvidersRequestIter_Next {| ndjson.wq_iter := s |}))
     = true
  /\ traces.settled
       (fst (ndjson.writeProvidersResponseIter_Next {| ndjson.wr_iter := s |}))
     = true.
Proof.
  split; [|split]; dispatch_unfold; simpl;
    destruct (Next s) as [[[v [|]] [e|]] it]; simpl; try reflexivity;
    destruct (String.eqb (Schema v) SchemaBitswap); try reflexivity;
    match goal with
    | |- context [match ?u with pair _ _ => _ end] => destruct u as [? [?|]]
    end; reflexivity.
Qed.

End DispatchResults.

Section DispatchDrain.
Context `{Package} {R D : Type} `{JSONDecode D UnknownProviderRecord}.
Implicit Types (j : iter.JSONIter R D).

Lemma read_Next_unknown j v d' :
  iter.done j = false ->
  context.Err (iter.ctx j) = None ->
  Decode (iter.Decoder j) (zero : UnknownProviderRecord) = (v, None, d') ->
  Schema v <> SchemaBitswap ->
  ndjson.readProvidersResponseIter_Next {| ndjson.r_iter := j |}
  = ((Some (UnknownResponse v), true, None),
     {| ndjson.r_iter :=
          {| iter.Decoder := d'; iter.Reader := iter.Reader j;
             iter.ctx := iter.ctx j; iter.done := false |} |}).
Proof.
  intros Hd Hc Hdec Hs. apply String.eqb_neq in Hs.
  unfold ndjson.readProvidersResponseIter_Next. simpl.
  change (Next j) with (iter.JSONIter_Next (T := UnknownProviderRecord) j).
  rewrite (Next_on_value j v d' Hd Hc Hdec). simpl. rewrite Hs. reflexivity.
Qed.

Lemma writeRequest_Next_unknown j v d' :
  iter.done j = false ->
  context.Err (iter.ctx j) = None ->
  Decode (iter.Decoder j) (zero : UnknownProviderRecord) = (v, None, d') ->
  Schema v <> SchemaBitswap ->
  ndjson.writeProvidersRequestIter_Next {| ndjson.wq_iter := j |}
  = ((Some (UnknownWrite v), true, None),
     {| ndjson.wq_iter :=
          {| iter.Decoder := d'; iter.Reader := iter.Reader j;
             iter.ctx := iter.ctx j; iter.done := false |} |}).
Proof.
  intros Hd Hc Hdec Hs. apply String.eqb_neq in Hs.
  unfold ndjson.writeProvidersRequestIter_Next. simpl.
  change (Next j) with (iter.JSONIter_Next (T := UnknownProviderRecord) j).
  rewrite (Next_on_value j v d' Hd Hc Hdec). simpl. rewrite Hs. reflexivity.
Qed.

Lemma writeResponse_Next_unknown j v d' :
  iter.done j = false ->
  context.Err (iter.ctx j) = None ->
  Decode (iter.Decoder j) (zero : UnknownProviderRecord) = (v, None, d') ->
  Schema v <> SchemaBitswap ->
  ndjson.writeProvidersResponseIter_Next {| ndjson.wr_iter := j |}
  = ((Some (UnknownResponse v), true, None),
     {| ndjson.wr_iter :=
          {| iter.Decoder := d'; iter.Reader := iter.Reader j;
             iter.ctx := iter.ctx j; iter.done := false |} |}).
Proof.
  intros Hd Hc Hdec Hs. apply String.eqb_neq in Hs.
  unfold ndjson.writeProvidersResponseIter_Next. simpl.
  change (Next j) with (iter.JSONIter_Next (T := UnknownProviderRecord) j).
  rewrite (Next_on_value j v d' Hd Hc Hdec). simpl. rewrite Hs. reflexivity.
Qed.

(** X8.  Records of schemas the decoders do not know pass through
    unchanged and in order: over a live stream that holds the envelopes
    [vs], none under the bitswap discriminator, each of the three decoders
    yields exactly [vs], each as the fallback variant, and the stream is
    left open and at the position after them. *)
Theorem unknown_schemas_pass_through_in_order (vs : list UnknownProviderRecord) :
  forall j d',
  iter.done j = false ->
  context.Err (iter.ctx j) = None ->
  traces.Decodes (iter.Decoder j) vs d' ->
  Forall (fun v => Schema v <> SchemaBitswap) vs ->
  traces.pulls (List.length vs) {| ndjson.r_iter := j |}
  = (map (fun v => (Some (UnknownResponse v), true, None)) vs,
     {| ndjson.r_iter :=
          {| iter.Decoder := d'; iter.Reader := iter.Reader j;
             iter.ctx := iter.ctx j; iter.done := false |} |})
  /\ traces.pulls (List.length vs) {| ndjson.wq_iter := j |}
     = (map (fun v => (Some (UnknownWrite v), true, None)) vs,
        {| ndjson.wq_iter :=
             {| iter.Decoder := d'; iter.Reader := iter.Reader j;
                iter.ctx := iter.ctx j; iter.done := false |} |})
  /\ traces.pulls (List.length vs) {| ndjson.wr_iter := j |}
     = (map (fun v => (Some (UnknownResponse v), true, None)) vs,
        {| ndjson.wr_iter :=
             {| iter.Decoder := d'; iter.Reader := iter.Reader j;
                iter.ctx := iter.ctx j; iter.done := false |} |}).
Proof.
  induction vs as [|v vs IH]; intros j d' Hd Hc Hdec Hall.
  - inversion Hdec; subst. simpl.
    destruct j; simpl in *; subst; auto.
  - inversion Hdec as [|d0 v0 d1 vs0 d2 Hv Hrest]; subst.
    inversion Hall as [|v1 vs1 Hs Hall']; subst.
    destruct (IH {| iter.Decoder := d1; iter.Reader := iter.Reader j;
                    iter.ctx := iter.ctx j; iter.done := false |}
                 d' eq_refl Hc Hrest Hall') as (IHr & IHq & IHw).
    simpl in IHr, IHq, IHw.
    split; [|split]; simpl.
    + change (Next {| ndjson.r_iter := j |})
        with (ndjson.readProvidersResponseIter_Next {| ndjson.r_iter := j |}).
      rewrite (read_Next_unknown j v d1 Hd Hc Hv Hs), IHr. reflexivity.
    + change (Next {| ndjson.wq_iter := j |})
        with (ndjson.writeProvidersRequestIter_Next {| ndjson.wq_iter := j |}).
      rewrite (writeRequest_Next_unknown j v d1 Hd Hc Hv Hs), IHq. reflexivity.
    + change (Next {| ndjson.wr_iter := j |})
        with (ndjson.writeProvidersResponseIter_Next {| ndjson.wr_iter := j |}).
      rewrite (writeResponse_Next_unknown j v d1 Hd Hc Hv Hs), IHw. reflexivity.
Qed.

End DispatchDrain.

(** ** Schema dispatch, envelope by envelope *)

Section SchemaDispatchOverStream.
Context `{Package} {R D : Type} `{JSONDecode D UnknownProviderRecord}.
Implicit Types (j : iter.JSONIter R D).

(** [UnknownProviderRecord.MarshalJSON]: the serializer of the record is
    declared in package types, outside the sources.  It is a parameter: no
    property of it is used. *)
Variable MarshalJSON : UnknownProviderRecord -> list Byte.byte * option error.


End SchemaDispatchOverStream.

(** ** Effects and results of [FindProviders] *)

Section FindProvidersFacts.
Context {R D : Type}.
Context `{Package} `{Crypto} `{!Collaborators R}.
Context `{!JSONReader R D}.
Context `{!JSONDecode D UnknownProviderRecord}.
Context `{!JSONDecode D ReadProvidersResponse}.
Context `{!JSONDecode D WriteProvidersResponse}.
Implicit Types (c : client.client (R := R)) (ctx : context.Context).

Lemma mediaTypes_differ (mt : string) :
  String.eqb mt client.mediaTypeNDJSON = true ->
  String.eqb mt client.mediaTypeJSON = false.
Proof.
  intros E. apply String.eqb_eq in E. subst mt. reflexivity.
Qed.

(** Every path of [FindProviders], with its effects written out. *)
Ltac FindProviders_paths :=
  unfold client.FindProviders, client.FindProviders_deferred,
    client.bind, client.emit, client.ret;
  repeat match goal with
         | |- context [NewRequestWithContext ?a ?b ?c ?d] =>
             destruct (NewRequestWithContext a b c d) as [?req|?err]
         | |- context [client.httpClient_ ?c ?r] =>
             destruct (client.httpClient_ c r) as [?resp|?err]
         | |- context [(?a =? ?b)%Z] => destruct (a =? b)%Z
         | |- context [ParseMediaType ?s] =>
             destruct (ParseMediaType s) as [?mt [?err|]]
         | |- context [String.eqb ?a ?b] => destruct (String.eqb a b)
         | |- context [Decode ?d ?z] => destruct (Decode d z) as [[? ?] ?]
         | _ => progress simpl
         end.

(** X9.  In every path [FindProviders] records its measurement exactly
    once, as the last thing it does; it sends at most one request, and
    closes a body at most once and only after a request. *)
Theorem FindProviders_records_once_and_last c ctx (key : Cid) :
  traces.count traces.is_Recorded
    (snd (client.FindProviders (D := D) c ctx key)) = 1
  /\ (exists m,
        last (snd (client.FindProviders (D := D) c ctx key)) client.BodyClose
        = client.Recorded m)
  /\ traces.count traces.is_Do
       (snd (client.FindProviders (D := D) c ctx key)) <= 1
  /\ traces.count traces.is_BodyClose
       (snd (client.FindProviders (D := D) c ctx key))
     <= traces.count traces.is_Do
          (snd (client.FindProviders (D := D) c ctx key)).
Proof.
  unfold traces.count.
  FindProviders_paths;
    (split; [reflexivity|split; [eexists; reflexivity|split; simpl; lia]]).
Qed.

(** X10.  Who closes the body of a response: [FindProviders] itself, once,
    in every path but one.  For a 200 response whose media type is
    [application/x-ndjson] it closes nothing and hands the open body, with
    the caller's context, to the iterator it returns. *)
Theorem FindProviders_closes_body_unless_streaming c ctx (key : Cid)
  (req : http.Request) (resp : http.Response R) :
  NewRequestWithContext ctx http.MethodGet
    (client.baseURL c ++ ProvidePath ++ key)%string None = inl req ->
  client.httpClient_ c req = inl resp ->
  (http.StatusCode resp = http.StatusOK ->
   forall mt,
     ParseMediaType (http.Header_Get resp "Content-Type") = (mt, None) ->
     String.eqb mt client.mediaTypeNDJSON = true ->
     traces.count traces.is_BodyClose
       (snd (client.FindProviders (D := D) c ctx key)) = 0 /\
     fst (client.FindProviders (D := D) c ctx key)
     = (Some (client.OfNDJSON
                {| ndjson.r_iter :=
                     {| iter.Decoder := NewDecoder (io.Closer (http.Body resp));
                        iter.Reader := io.Closer (http.Body resp);
                        iter.ctx := ctx;
                        iter.done := false |} |}),
        None))
  /\ ((http.StatusCode resp <> http.StatusOK \/
       exists mt err,
         ParseMediaType (http.Header_Get resp "Content-Type") = (mt, err) /\
         (err <> None \/ String.eqb mt client.mediaTypeNDJSON = false)) ->
      traces.count traces.is_BodyClose
        (snd (client.FindProviders (D := D) c ctx key)) = 1).
Proof.
  intros Hreq Hdo. unfold traces.count. split.
  - intros Hst mt Hmt Hnd.
    pose proof (mediaTypes_differ mt Hnd) as Hj.
    unfold client.FindProviders, client.FindProviders_deferred,
      client.bind, client.emit, client.ret.
    rewrite Hreq, Hdo, Hst, Hmt. simpl. rewrite Hj, Hnd. simpl.
    split; reflexivity.
  - intros Hor.
    unfold client.FindProviders, client.FindProviders_deferred,
      client.bind, client.emit, client.ret.
    rewrite Hreq, Hdo. simpl.
    destruct (http.StatusCode resp =? http.StatusNotFound)%Z eqn:E404;
      [reflexivity|].
    destruct (http.StatusCode resp =? http.StatusOK)%Z eqn:E200;
      [|reflexivity].
    simpl. apply Z.eqb_eq in E200.
    destruct Hor as [Hne|(mt & err & Hmt & Hcase)]; [congruence|].
    rewrite Hmt. destruct err as [e|]; [reflexivity|].
    destruct Hcase as [Hn|Hnd]; [congruence|].
    destruct (String.eqb mt client.mediaTypeJSON).
    + destruct (Decode (NewDecoder (io.Closer (http.Body resp))) zero)
        as [[parsedResp err] d].
      reflexivity.
    + rewrite Hnd. reflexivity.
Qed.

(** X11.  The batch path returns its iterator whether or not the body
    decoded: for a 200 response of media type [application/json] the result
    is a sequence iterator over whatever [Providers] the decoder left,
    together with the decoder's error if any; the body is closed and the
    measurement carries the status and the number of providers. *)
Theorem FindProviders_batch_returns_iterator_with_error c ctx (key : Cid)
  (req : http.Request) (resp : http.Response R) mt parsedResp err d :
  NewRequestWithContext ctx http.MethodGet
    (client.baseURL c ++ ProvidePath ++ key)%string None = inl req ->
  client.httpClient_ c req = inl resp ->
  http.StatusCode resp = http.StatusOK ->
  ParseMediaType (http.Header_Get resp "Content-Type") = (mt, None) ->
  String.eqb mt client.mediaTypeJSON = true ->
  Decode (NewDecoder (io.Closer (http.Body resp)))
         (zero : ReadProvidersResponse) = (parsedResp, err, d) ->
  exists m,
    client.FindProviders (D := D) c ctx key
    = ((Some (client.OfSlice (iter.FromSlice (Providers parsedResp))), err),
       [client.Do req; client.BodyClose; client.Recorded m]) /\
    client.m_length m = Some (List.length (Providers parsedResp)) /\
    client.m_statusCode m = http.StatusOK /\
    client.m_host m = http.Host req /\
    client.m_err m = None.
Proof.
  intros Hreq Hdo Hst Hmt Hj Hdec.
  unfold client.FindProviders, client.FindProviders_deferred,
    client.bind, client.emit, client.ret.
  rewrite Hreq, Hdo, Hst, Hmt. simpl. rewrite Hj, Hdec. simpl.
  eexists. split; [reflexivity|]. simpl. auto.
Qed.

(** X12.  Failures before any response are returned as they are.  When the
    request cannot be built nothing is sent, and the measurement is recorded
    as it was created; when the transport fails, the measurement recorded
    carries the request's host, the transport's error and the time the
    clock measured. *)
Theorem FindProviders_failures_before_response c ctx (key : Cid) :
  (forall err,
      NewRequestWithContext ctx http.MethodGet
        (client.baseURL c ++ ProvidePath ++ key)%string None = inr err ->
      client.FindProviders (D := D) c ctx key
      = ((None, Some err),
         [client.Recorded (client.newMeasurement "FindProviders")]))
  /\ (forall req err,
      NewRequestWithContext ctx http.MethodGet
        (client.baseURL c ++ ProvidePath ++ key)%string None = inl req ->
      client.httpClient_ c req = inr err ->
      exists m,
        client.FindProviders (D := D) c ctx key
        = ((None, Some err), [client.Do req; client.Recorded m]) /\
        client.m_err m = Some err /\ client.m_host m = http.Host req /\
        client.m_latency m
        = client.Since (client.clock c) (client.Now (client.clock c))).
Proof.
  split.
  - intros err Hreq.
    unfold client.FindProviders, client.FindProviders_deferred,
      client.bind, client.emit, client.ret.
    rewrite Hreq. reflexivity.
  - intros req err Hreq Hdo.
    unfold client.FindProviders, client.FindProviders_deferred,
      client.bind, client.emit, client.ret.
    rewrite Hreq, Hdo. simpl. eexists. split; [reflexivity|]. simpl. auto.
Qed.

(** X13.  The iterator of the streaming path watches the context of the
    call that created it: when that context is already cancelled, the first
    pull of the returned iterator returns the context's error without a
    value, and the response body is closed by that pull. *)
Theorem FindProviders_stream_observes_callers_context c ctx (key : Cid)
  (req : http.Request) (resp : http.Response R) mt e :
  NewRequestWithContext ctx http.MethodGet
    (client.baseURL c ++ ProvidePath ++ key)%string None = inl req ->
  client.httpClient_ c req = inl resp ->
  http.StatusCode resp = http.StatusOK ->
  ParseMediaType (http.Header_Get resp "Content-Type") = (mt, None) ->
  String.eqb mt client.mediaTypeNDJSON = true ->
  context.Err ctx = Some e ->
  exists p,
    fst (fst (client.FindProviders (D := D) c ctx key))
    = Some (client.OfNDJSON p) /\
    fst (ndjson.readProvidersResponseIter_Next p) = (None, false, Some e) /\
    iter.Reader (ndjson.r_iter (snd (ndjson.readProvidersResponseIter_Next p)))
    = io.Closer (io.Close (http.Body resp)) /\
    iter.done (ndjson.r_iter (snd (ndjson.readProvidersResponseIter_Next p)))
    = true.
Proof.
  intros Hreq Hdo Hst Hmt Hnd He.
  pose proof (mediaTypes_differ mt Hnd) as Hj.
  unfold client.FindProviders, client.FindProviders_deferred,
    client.bind, client.emit, client.ret.
  rewrite Hreq, Hdo, Hst, Hmt. simpl. rewrite Hj, Hnd. simpl.
  eexists. split; [reflexivity|].
  unfold ndjson.readProvidersResponseIter_Next,
    ndjson.NewReadProvidersResponseIter, iter.FromReaderJSON. simpl.
  change (Next ?x) with (iter.JSONIter_Next (T := UnknownProviderRecord) x).
  unfold iter.JSONIter_Next. simpl. rewrite He. simpl. auto.
Qed.

End FindProvidersFacts.

(** ** Effects and failures of the provide round trip *)

Section ProvideFacts.
Context {R D : Type}.
Context `{Package} `{Crypto} `{!Collaborators R}.
Context `{!JSONReader R D}.
Context `{!JSONDecode D UnknownProviderRecord}.
Context `{!JSONDecode D ReadProvidersResponse}.
Context `{!JSONDecode D WriteProvidersResponse}.
Implicit Types (c : client.client (R := R)) (ctx : context.Context).

(** X16.  The submission of a signed record sends at most one request and
    closes the response body exactly when a response was received: its
    effects are nothing at all, or the request alone when the transport
    failed, or the request followed by the closing of the body.  An error is
    always returned with a zero duration. *)
Theorem provide_effects_and_zero_on_error c ctx
  (bswp : WriteBitswapProviderRecord) :
  (snd (fst (client.provideSignedBitswapRecord (D := D) c ctx bswp)) <> None ->
   fst (fst (client.provideSignedBitswapRecord (D := D) c ctx bswp)) = 0%Z)
  /\ (snd (client.provideSignedBitswapRecord (D := D) c ctx bswp) = []
      \/ (exists req err,
            snd (client.provideSignedBitswapRecord (D := D) c ctx bswp)
            = [client.Do req] /\
            client.httpClient_ c req = inr err)
      \/ (exists req resp,
            snd (client.provideSignedBitswapRecord (D := D) c ctx bswp)
            = [client.Do req; client.BodyClose] /\
            client.httpClient_ c req = inl resp)).
Proof.
  provide_paths;
    (split;
     [ intros Hn; solve [reflexivity | exfalso; apply Hn; reflexivity]
     | first [ left; reflexivity
             | right; left; eexists; eexists; split; [reflexivity|eassumption]
             | right; right; eexists; eexists; split;
               [reflexivity|eassumption] ] ]).
Qed.

(** X17.  A transport failure of the provide request is returned wrapped,
    so that [errors.Is] still finds the transport's error, and no body is
    closed.  A response with a status other than 200 gives the error that
    [httpError] builds from the status and the still open body, and the
    body is closed afterwards. *)
Theorem provide_transport_and_status_failures c ctx
  (bswp : WriteBitswapProviderRecord) b httpReq :
  MarshalJSONBytes {| wqProviders := [Some (WriteBitswap bswp)] |}
  = (b, None) ->
  NewRequestWithContext ctx http.MethodPost
    (client.baseURL c ++ ProvidePath)%string (Some b) = inl httpReq ->
  (forall err,
      client.httpClient_ c httpReq = inr err ->
      client.provideSignedBitswapRecord (D := D) c ctx bswp
      = ((0%Z, Some (Wrap "making HTTP req to provide a signed record: " err)),
         [client.Do httpReq]) /\
      errors.Is_chain
        (Wrap "making HTTP req to provide a signed record: " err) err = true)
  /\ (forall resp,
      client.httpClient_ c httpReq = inl resp ->
      http.StatusCode resp <> http.StatusOK ->
      client.provideSignedBitswapRecord (D := D) c ctx bswp
      = ((0%Z, Some (httpError (http.StatusCode resp) (http.Body resp))),
         [client.Do httpReq; client.BodyClose])).
Proof.
  intros Hm Hreq. split.
  - intros err Hdo. split.
    + unfold client.provideSignedBitswapRecord, client.bind, client.emit,
        client.ret.
      rewrite Hm, Hreq, Hdo. reflexivity.
    + apply Is_chain_Wrap, Is_chain_refl.
  - intros resp Hdo Hst. apply Z.eqb_neq in Hst.
    unfold client.provideSignedBitswapRecord, client.bind, client.emit,
      client.ret.
    rewrite Hm, Hreq, Hdo, Hst. reflexivity.
Qed.

(** The record [ProvideBitswap] builds and signs. *)
Lemma ProvideBitswap_unfold_signed c ctx (keys : list Cid) (ttl : Duration) k :
  client.identity c = Some k ->
  client.Size (client.peerID c) <> 0 ->
  client.ProvideBitswap (D := D) c ctx keys ttl
  = client.bind
      (client.emit
         (client.Signing
            {| wProtocol := "transport-bitswap";
               wSchema := SchemaBitswap;
               wSignature := "";
               wPayload :=
                 {| Keys := keys;
                    AdvisoryTTL := Some ttl;
                    Timestamp := Some (client.Now (client.clock c));
                    ID := Some (client.peerID c);
                    Addrs := client.addrs c |} |}))
      (fun _ =>
         let '(req, err) :=
           Sign {| wProtocol := "transport-bitswap";
                   wSchema := SchemaBitswap;
                   wSignature := "";
                   wPayload :=
                     {| Keys := keys;
                        AdvisoryTTL := Some ttl;
                        Timestamp := Some (client.Now (client.clock c));
                        ID := Some (client.peerID c);
                        Addrs := client.addrs c |} |}
                (client.peerID c) k in
         match err with
         | Some err => client.ret (0%Z, Some err)
         | None =>
             client.bind
               match client.afterSignCallback c with
               | Some callback =>
                   client.bind (client.emit client.AfterSign)
                     (fun _ => client.ret (callback req))
               | None => client.ret req
               end
               (fun req =>
                  client.bind (client.provideSignedBitswapRecord c ctx req)
                    (fun r =>
                       let '(advisoryTTL, err) := r in
                       match err with
                       | Some err => client.ret (0%Z, Some err)
                       | None => client.ret (advisoryTTL, err)
                       end))
         end).
Proof.
  intros Hk Hsz. unfold client.ProvideBitswap. rewrite Hk.
  apply Nat.eqb_neq in Hsz. rewrite Hsz. rewrite map_id. reflexivity.
Qed.

(** X14.  When signing fails, [ProvideBitswap] returns the signer's error
    with a zero duration and stops: the record built from the keys, the
    TTL, the clock's time, the peer ID and the addresses was handed to the
    signer, and no request is made. *)
Theorem ProvideBitswap_signing_failure_sends_nothing c ctx
  (keys : list Cid) (ttl : Duration) k unsigned err :
  client.identity c = Some k ->
  client.Size (client.peerID c) <> 0 ->
  Sign {| wProtocol := "transport-bitswap";
          wSchema := SchemaBitswap;
          wSignature := "";
          wPayload :=
            {| Keys := keys;
               AdvisoryTTL := Some ttl;
               Timestamp := Some (client.Now (client.clock c));
               ID := Some (client.peerID c);
               Addrs := client.addrs c |} |}
       (client.peerID c) k = (unsigned, Some err) ->
  client.ProvideBitswap (D := D) c ctx keys ttl
  = ((0%Z, Some err),
     [client.Signing
        {| wProtocol := "transport-bitswap";
           wSchema := SchemaBitswap;
           wSignature := "";
           wPayload :=
             {| Keys := keys;
                AdvisoryTTL := Some ttl;
                Timestamp := Some (client.Now (client.clock c));
                ID := Some (client.peerID c);
                Addrs := client.addrs c |} |}]).
Proof.
  intros Hk Hsz Hsign.
  rewrite (ProvideBitswap_unfold_signed c ctx keys ttl k Hk Hsz).
  unfold client.bind, client.emit, client.ret. rewrite Hsign. reflexivity.
Qed.

(** X15.  [ProvideBitswap] signs before it sends, and does each at most
    once: either it has no effect at all, or its first effect is the
    signing, followed by at most one run of the hook, at most one request
    and at most one closing of a body, never a second signing.  An error is
    always returned with a zero duration. *)
Theorem ProvideBitswap_signs_once_before_sending c ctx
  (keys : list Cid) (ttl : Duration) :
  (snd (fst (client.ProvideBitswap (D := D) c ctx keys ttl)) <> None ->
   fst (fst (client.ProvideBitswap (D := D) c ctx keys ttl)) = 0%Z)
  /\ (snd (client.ProvideBitswap (D := D) c ctx keys ttl) = []
      \/ exists r rest,
           snd (client.ProvideBitswap (D := D) c ctx keys ttl)
           = client.Signing r :: rest /\
           traces.count traces.is_Signing rest = 0 /\
           traces.count traces.is_AfterSign rest <= 1 /\
           traces.count traces.is_Do rest <= 1 /\
           traces.count traces.is_BodyClose rest
           <= traces.count traces.is_Do rest).
Proof.
  unfold client.ProvideBitswap, traces.count.
  destruct (client.identity c) as [k|];
    [|split; [intros _; reflexivity|left; reflexivity]].
  destruct (client.Size (client.peerID c) =? 0);
    [split; [intros _; reflexivity|left; reflexivity]|].
  unfold client.bind at 1, client.emit at 1.
  match goal with
  | |- context [Sign ?r ?p ?k] => destruct (Sign r p k) as [req [err|]]
  end.
  - simpl. split; [intros _; reflexivity|].
    right. eexists. eexists. split; [reflexivity|]. simpl. lia.
  - destruct (client.afterSignCallback c) as [callback|];
      provide_paths;
      (split;
       [ intros Hn; solve [reflexivity | exfalso; apply Hn; reflexivity]
       | right; eexists; eexists; split; [reflexivity|simpl; lia] ]).
Qed.

End ProvideFacts.

(** ** Options and construction *)

Section OptionsFacts.
Context {R : Type} `{Crypto}.
Implicit Types (c : client.client (R := R)).

Lemma append_each {A : Type} (l : list A) : forall init,
  fold_left (fun acc a => acc ++ [a]) l init = init ++ l.
Proof.
  induction l as [|x l IH]; intros init; simpl.
  - rewrite app_nil_r. reflexivity.
  - rewrite IH, <- app_assoc. reflexivity.
Qed.

(** X18.  Options are applied in the order given.  A later identity or
    peer ID replaces an earlier one, while the addresses of successive
    [WithProviderInfo] options accumulate, in order, after the addresses
    the client already has. *)
Theorem options_apply_in_order_and_addresses_accumulate c :
  (forall opts1 opts2,
      client.configure (opts1 ++ opts2) c
      = client.configure opts2 (client.configure opts1 c))
  /\ (forall p a,
      client.peerID (client.WithProviderInfo p a c) = p /\
      client.addrs (client.WithProviderInfo p a c) = client.addrs c ++ a)
  /\ (forall p1 a1 p2 a2,
      client.peerID
        (client.configure
           [client.WithProviderInfo p1 a1; client.WithProviderInfo p2 a2] c)
      = p2 /\
      client.addrs
        (client.configure
           [client.WithProviderInfo p1 a1; client.WithProviderInfo p2 a2] c)
      = client.addrs c ++ a1 ++ a2)
  /\ (forall k1 k2,
      client.identity
        (client.configure [client.WithIdentity k1; client.WithIdentity k2] c)
      = k2).
Proof.
  split; [|split; [|split]].
  - intros opts1 opts2. unfold client.configure. apply fold_left_app.
  - intros p a. simpl. split; [reflexivity|apply append_each].
  - intros p1 a1 p2 a2. simpl. split; [reflexivity|].
    rewrite !append_each, <- app_assoc. reflexivity.
  - intros k1 k2. reflexivity.
Qed.

(** X20.  [New] returns a client or an error, never both and never
    neither.  The client it returns is the configured one, and it is
    consistent: it has no identity, or no peer ID, or a peer ID that
    matches the identity's public key.  The only error is "identity does
    not match provider". *)
Theorem New_returns_consistent_client_or_error
  (h : client.httpClient (R := R)) (clk : client.Clock) (baseURL : string)
  (opts : list client.option_) :
  (client.New h clk baseURL opts
   = (Some (client.configure opts (client.defaults h clk baseURL)), None)
   /\ (client.identity (client.configure opts (client.defaults h clk baseURL))
       = None
       \/ client.Size
            (client.peerID
               (client.configure opts (client.defaults h clk baseURL))) = 0
       \/ exists k,
            client.identity
              (client.configure opts (client.defaults h clk baseURL))
            = Some k /\
            MatchesPublicKey
              (client.peerID
                 (client.configure opts (client.defaults h clk baseURL)))
              (GetPublic k) = true))
  \/ (client.New h clk baseURL opts
      = (None, Some (errors.New "identity does not match provider"))
      /\ exists k,
           client.identity
             (client.configure opts (client.defaults h clk baseURL))
           = Some k /\
           client.Size
             (client.peerID
                (client.configure opts (client.defaults h clk baseURL))) <> 0 /\
           MatchesPublicKey
             (client.peerID
                (client.configure opts (client.defaults h clk baseURL)))
             (GetPublic k) = false).
Proof.
  unfold client.New.
  destruct (client.identity
              (client.configure opts (client.defaults h clk baseURL)))
    as [k|] eqn:Hk; [|left; auto].
  destruct (client.Size
              (client.peerID
                 (client.configure opts (client.defaults h clk baseURL))) =? 0)
    eqn:Hsz.
  - left. apply Nat.eqb_eq in Hsz. simpl. auto.
  - apply Nat.eqb_neq in Hsz.
    destruct (MatchesPublicKey
                (client.peerID
                   (client.configure opts (client.defaults h clk baseURL)))
                (GetPublic k)) eqn:Hm; simpl.
    + left. split; [reflexivity|]. right. right. exists k. auto.
    + right. split; [reflexivity|]. exists k. auto.
Qed.

Lemma exported_keeps_hook (o : client.option_ (R := R)) c :
  traces.exported o ->
  client.afterSignCallback (o c) = client.afterSignCallback c.
Proof. intros Ho. destruct Ho; reflexivity. Qed.

Lemma exported_hook_None (opts : list (client.option_ (R := R))) : forall c,
  Forall traces.exported opts ->
  client.afterSignCallback c = None ->
  client.afterSignCallback (client.configure opts c) = None.
Proof.
  induction opts as [|o opts IH]; intros c Hall Hc; [exact Hc|].
  inversion Hall; subst. unfold client.configure in *. simpl.
  apply IH; [assumption|].
  rewrite exported_keeps_hook by assumption. exact Hc.
Qed.

Lemma configure_keeps_identity (opts : list (client.option_ (R := R))) :
  forall c,
  Forall (fun o => forall c', client.identity (o c') = client.identity c') opts ->
  client.identity (client.configure opts c) = client.identity c.
Proof.
  induction opts as [|o opts IH]; intros c Hall; [reflexivity|].
  inversion Hall as [|o' opts' Ho Hrest]; subst.
  unfold client.configure in *. simpl. rewrite (IH (o c) Hrest). apply Ho.
Qed.

End OptionsFacts.

(** ** Clients as [New] builds them *)

Section ConstructedClients.
Context {R D : Type}.
Context `{Package} `{Crypto} `{!Collaborators R}.
Context `{!JSONReader R D}.
Context `{!JSONDecode D UnknownProviderRecord}.
Context `{!JSONDecode D ReadProvidersResponse}.
Context `{!JSONDecode D WriteProvidersResponse}.
Implicit Types (c : client.client (R := R)) (ctx : context.Context).

(** X19.  The [accepts] value is stored and never read: with
    [WithStreamResultsRequired] applied, [FindProviders] and
    [ProvideBitswap] build the same requests and return the same results
    and effects as without it. *)
Theorem accepts_is_never_read c ctx (key : Cid) (keys : list Cid)
  (ttl : Duration) :
  client.accepts (client.WithStreamResultsRequired c) = "application/json"
  /\ client.FindProviders (D := D) (client.WithStreamResultsRequired c) ctx key
     = client.FindProviders (D := D) c ctx key
  /\ client.ProvideBitswap (D := D) (client.WithStreamResultsRequired c)
       ctx keys ttl
     = client.ProvideBitswap (D := D) c ctx keys ttl.
Proof. split; [|split]; reflexivity. Qed.

(** X21.  The hook that runs after signing cannot be set through the
    exported options: a client configured from them has no hook, and its
    [ProvideBitswap] never runs one. *)
Theorem hook_is_not_reachable_through_exported_options
  (h : client.httpClient (R := R)) (clk : client.Clock) (baseURL : string)
  (opts : list client.option_) ctx (keys : list Cid) (ttl : Duration) :
  Forall traces.exported opts ->
  client.afterSignCallback
    (client.configure opts (client.defaults h clk baseURL)) = None
  /\ traces.count traces.is_AfterSign
       (snd (client.ProvideBitswap (D := D)
               (client.configure opts (client.defaults h clk baseURL))
               ctx keys ttl)) = 0.
Proof.
  intros Hall.
  assert (Hhook : client.afterSignCallback
                    (client.configure opts (client.defaults h clk baseURL))
                  = None)
    by (apply exported_hook_None; [exact Hall|reflexivity]).
  split; [exact Hhook|].
  unfold client.ProvideBitswap, traces.count. rewrite Hhook.
  destruct (client.identity _) as [k|]; [|reflexivity].
  destruct (client.Size _ =? 0); [reflexivity|].
  unfold client.bind at 1, client.emit at 1.
  match goal with
  | |- context [Sign ?r ?p ?k] => destruct (Sign r p k) as [req [err|]]
  end; [reflexivity|].
  provide_paths; reflexivity.
Qed.

(** X22.  A client built without an identity cannot provide.  The options
    [WithHTTPClient], [WithProviderInfo] and [WithStreamResultsRequired]
    leave the identity as it is; with options that leave it alone [New]
    succeeds, and [ProvideBitswap] on the client it returns fails with the
    configuration error, without any effect. *)
Theorem client_built_without_identity_cannot_provide
  (h : client.httpClient (R := R)) (clk : client.Clock) (baseURL : string)
  (opts : list client.option_) ctx (keys : list Cid) (ttl : Duration) :
  (forall h' p a c,
      client.identity (client.WithHTTPClient h' c) = client.identity c /\
      client.identity (client.WithProviderInfo p a c) = client.identity c /\
      client.identity (client.WithStreamResultsRequired c) = client.identity c)
  /\ (Forall (fun o => forall c, client.identity (o c) = client.identity c)
        opts ->
      client.New h clk baseURL opts
      = (Some (client.configure opts (client.defaults h clk baseURL)), None) /\
      client.ProvideBitswap (D := D)
        (client.configure opts (client.defaults h clk baseURL)) ctx keys ttl
      = ((0%Z, Some (errors.New
                       "cannot provide Bitswap records without an identity")),
         [])).
Proof.
  split; [intros; repeat split; reflexivity|].
  intros Hall.
  pose proof (configure_keeps_identity opts (client.defaults h clk baseURL) Hall)
    as Hid.
  simpl in Hid. split.
  - unfold client.New. rewrite Hid. reflexivity.
  - unfold client.ProvideBitswap. rewrite Hid. reflexivity.
Qed.

End ConstructedClients.

(** ** The code on inputs *)

Import Scripted.

Example SliceIter_yields_in_order :
  let s0 := iter.FromSlice [Some 1; Some 2] in
  let '(r1, s1) := iter.SliceIter_Next s0 in
  let '(r2, s2) := iter.SliceIter_Next s1 in
  let '(r3, s3) := iter.SliceIter_Next s2 in
  (r1, r2, r3) = ((Some 1, true, None), (Some 2, true, None),
                  (None, false, None)).
Proof. reflexivity. Qed.

Example stream_yields_then_ends_and_closes :
  let '(r1, j1) := iter.JSONIter_Next (stream [unknown_line]) in
  let '(r2, j2) := iter.JSONIter_Next (T := UnknownProviderRecord) j1 in
  r1 = (envelope "graphsync" other_payload, true, None) /\
  r2 = (zero, false, None) /\
  io.closes (iter.Reader j1) = 0 /\ io.closes (iter.Reader j2) = 1.
Proof. vm_compute. repeat split. Qed.

Example provide_24h_end_to_end :
  fst (client.ProvideBitswap provider_with_ttl context.Background [key] day)
  = (day, None).
Proof. vm_compute. reflexivity. Qed.

(** C1: a run of the amended statement. *)
Lemma stream_closed_at_most_once_run :
  released (runs.cancelled Canceled (stream [unknown_line]))
    (snd (iter.JSONIter_Next (T := UnknownProviderRecord)
            (runs.cancelled Canceled (stream [unknown_line])))) /\
  io.closes
    (iter.Reader
       (runs.run (T := UnknownProviderRecord)
          [CallNext; CallNext; Cancel Canceled; CallNext; CallNext]
          (stream [unknown_line])))
  <= 0 + 1.
Proof.
  split.
  - exact (proj1 (proj1
             (stream_closed_on_own_terminal_paths_at_most_once
                (T := UnknownProviderRecord)
                (runs.cancelled Canceled (stream [unknown_line])))
             eq_refl) Canceled eq_refl).
  - exact (proj1 (proj2
             (stream_closed_on_own_terminal_paths_at_most_once
                (T := UnknownProviderRecord) (stream [unknown_line])))
             [CallNext; CallNext; Cancel Canceled; CallNext; CallNext]).
Defined.

(** C1 as stated fails: a payload that does not decode under the bitswap
    discriminator makes the dispatching decoder return an error, and the
    stream is neither closed nor done. *)
Lemma malformed_payload_leaves_stream_open :
  fst (ndjson.readProvidersResponseIter_Next (read_stream [bad_bitswap_line]))
  = (None, false, Some unmarshal_error) /\
  io.closes
    (iter.Reader
       (ndjson.r_iter
          (snd (ndjson.readProvidersResponseIter_Next
                  (read_stream [bad_bitswap_line]))))) = 0 /\
  iter.done
    (ndjson.r_iter
       (snd (ndjson.readProvidersResponseIter_Next
               (read_stream [bad_bitswap_line])))) = false.
Proof. vm_compute. repeat split. Qed.

(** C2: a run of the amended statement. *)
Lemma exhausted_stream_stays_empty_run :
  terminal (fst (iter.JSONIter_Next (T := UnknownProviderRecord) (stream [])))
  = true /\
  fst (iter.JSONIter_Next (T := UnknownProviderRecord)
         (runs.run (T := UnknownProviderRecord)
            [CallNext; Cancel Canceled; CallNext]
            (snd (iter.JSONIter_Next (T := UnknownProviderRecord) (stream [])))))
  = (zero, false, None).
Proof.
  split; [reflexivity|].
  exact (proj1 (proj2
           (terminal_then_empty_forever (T := UnknownProviderRecord)))
           (stream [])
           (fst (iter.JSONIter_Next (T := UnknownProviderRecord) (stream [])))
           (snd (iter.JSONIter_Next (T := UnknownProviderRecord) (stream [])))
           eq_refl eq_refl
           [CallNext; Cancel Canceled; CallNext]).
Defined.

(** C2 as stated fails: after the error for a malformed bitswap payload the
    dispatching decoder's next call yields the next record. *)
Lemma decoder_continues_after_payload_error :
  fst (ndjson.readProvidersResponseIter_Next
         (read_stream [bad_bitswap_line; unknown_line]))
  = (None, false, Some unmarshal_error) /\
  fst (ndjson.readProvidersResponseIter_Next
         (snd (ndjson.readProvidersResponseIter_Next
                 (read_stream [bad_bitswap_line; unknown_line]))))
  = (Some (UnknownResponse (envelope "graphsync" other_payload)), true, None).
Proof. vm_compute. split; reflexivity. Qed.

(** C3: a run of the amended statement. *)
Lemma FindProviders_404_run :
  fst (client.FindProviders no_providers context.Background key)
  = (None, None) /\
  client.ProvsIter_Next
    (fst (fst (client.FindProviders no_providers context.Background key)))
  = client.Panics.
Proof.
  pose proof (FindProviders_404_returns_nil_iterator (D := Wire)
                no_providers context.Background key
                {| http.Method := "GET";
                   http.URL := ("https://router.example/routing/v1/providers/"
                                ++ key)%string;
                   http.Host := "router";
                   http.ReqBody := None;
                   http.ReqCtx := context.Background |}
                {| http.StatusCode := 404;
                   http.Header_Get := fun _ => "application/json";
                   http.Body := {| io.content := ReadDocument [];
                                   io.closed := 0 |} |}
                eq_refl eq_refl eq_refl) as [E [P _]].
  exact (conj E P).
Defined.

(** C3 as stated fails: what a 404 returns is the nil interface, on which
    [Next()] does not report exhaustion but panics. *)
Lemma FindProviders_404_result_cannot_be_pulled :
  client.ProvsIter_Next
    (fst (fst (client.FindProviders no_providers context.Background key)))
  = client.Panics.
Proof. vm_compute. reflexivity. Qed.



(** C5: a run. *)
Lemma cancelled_stream_run :
  iter.JSONIter_Next (T := UnknownProviderRecord)
    (runs.cancelled Canceled (stream [unknown_line]))
  = ((zero, true, Some Canceled),
     iter.close (runs.cancelled Canceled (stream [unknown_line]))) /\
  iter.Decoder (iter.close (runs.cancelled Canceled (stream [unknown_line])))
  = Lines [unknown_line].
Proof.
  destruct (proj1 (cancellation_checked_before_decode
                     (T := UnknownProviderRecord)
                     (runs.cancelled Canceled (stream [unknown_line])) eq_refl)
              Canceled eq_refl) as [E [_ Hd]].
  exact (conj E Hd).
Defined.

(** C6: runs of the amended statement, on a 200 and on a 500 response. *)
Lemma provide_unwraps_on_200_run :
  fst (client.provideSignedBitswapRecord provider_with_ttl context.Background
         zero)
  = (day, None) /\
  fst (client.provideSignedBitswapRecord refusing_router context.Background
         zero)
  = (0%Z, Some (External "HTTP error with StatusCode=500")).
Proof.
  assert (H500 : 500%Z <> http.StatusOK) by (vm_compute; discriminate).
  split.
  - exact (proj2 (proj2
             (proj1 (proj2
                (ProvideBitswap_unwraps_one_result_only_on_200 (D := Wire)
                   provider_with_ttl context.Background zero
                   good_payload post_request
                   {| http.StatusCode := 200;
                      http.Header_Get := fun _ => "application/json";
                      http.Body :=
                        {| io.content :=
                             WriteDocument
                               [Some (WriteBitswapResponse
                                        {| rAdvisoryTTL := Some day |})];
                           io.closed := 0 |} |}
                   eq_refl eq_refl eq_refl))
                eq_refl
                {| ProvideResults :=
                     [Some (WriteBitswapResponse
                              {| rAdvisoryTTL := Some day |})] |}
                (Lines []) eq_refl))
             {| rAdvisoryTTL := Some day |} eq_refl).
  - exact (proj1
             (ProvideBitswap_unwraps_one_result_only_on_200 (D := Wire)
                refusing_router context.Background zero
                good_payload post_request
                {| http.StatusCode := 500;
                   http.Header_Get := fun _ => "text/plain";
                   http.Body := {| io.content := Unparsable;
                                   io.closed := 0 |} |}
                eq_refl eq_refl eq_refl)
             H500).
Defined.

(** C6 as stated fails: a 201 response is a successful one, and its body
    holds exactly one bitswap result with an advisory TTL, but the TTL is
    not returned; the call gives the status error. *)
Lemma ProvideBitswap_201_is_an_error :
  fst (client.ProvideBitswap created context.Background [key] day)
  = (0%Z, Some (External "HTTP error with StatusCode=201")).
Proof. vm_compute. reflexivity. Qed.

(** C7: a run of the amended statement. *)
Lemma FindProviders_500_run :
  fst (client.FindProviders server_error context.Background key)
  = (None, Some (External "HTTP error with StatusCode=500")).
Proof.
  assert (H200 : 500%Z <> http.StatusOK) by (vm_compute; discriminate).
  assert (H404 : 500%Z <> http.StatusNotFound) by (vm_compute; discriminate).
  assert (Hreq : NewRequestWithContext context.Background http.MethodGet
                   (client.baseURL server_error ++ ProvidePath ++ key)%string
                   None
                 = inl get_request) by reflexivity.
  assert (Hdo : client.httpClient_ server_error get_request
                = inl {| http.StatusCode := 500;
                         http.Header_Get := fun _ => "text/plain";
                         http.Body := {| io.content := Unparsable;
                                         io.closed := 0 |} |})
    by reflexivity.
  destruct (proj1
              (FindProviders_status_dispatch (D := Wire)
                 server_error context.Background key get_request _ Hreq Hdo)
              H200 H404) as [body [_ E]].
  exact E.
Defined.

(** C7 as stated fails: a 204 response, which is 2xx, is not decoded; it
    gives the status error. *)
Lemma FindProviders_204_is_an_error :
  fst (client.FindProviders no_content context.Background key)
  = (None, Some (External "HTTP error with StatusCode=204")).
Proof. vm_compute. reflexivity. Qed.

(** C8: a run. *)
Lemma ProvideBitswap_anonymous_run :
  client.ProvideBitswap anonymous context.Background [key] day
  = ((0%Z, Some (errors.New
                   "cannot provide Bitswap records without an identity")),
     []).
Proof.
  exact (proj1 (ProvideBitswap_needs_identity_and_peer_ID (D := Wire)
                  anonymous context.Background [key] day) eq_refl).
Defined.

(** C9: a run. *)
Lemma inner_decode_error_reaches_caller_run :
  fst (ndjson.readProvidersResponseIter_Next
         {| ndjson.r_iter := stream [Broken syntax_error] |})
  = (None, false, Some (Wrap "json iterator: " syntax_error)).
Proof.
  assert (E : iter.JSONIter_Next (T := UnknownProviderRecord)
                (stream [Broken syntax_error])
              = ((zero, true, Some (Wrap "json iterator: " syntax_error)),
                 snd (iter.JSONIter_Next (T := UnknownProviderRecord)
                        (stream [Broken syntax_error]))))
    by (vm_compute; reflexivity).
  exact (proj1 (proj2 (proj2
           (inner_error_comes_with_hasMore (T := UnknownProviderRecord)
              (S := iter.JSONIter Wire Wire)))
           (stream [Broken syntax_error]) _ _ _ _ E)).
Defined.

(** C10: a run. *)
Lemma New_rejects_foreign_peer_ID_run :
  client.New unreachable clock0 "https://router.example"
    [client.WithIdentity (Some "alice"); client.WithProviderInfo "bob" []]
  = (None, Some (errors.New "identity does not match provider")).
Proof.
  assert (Hsz : client.Size
                  (client.peerID
                     (client.configure
                        [client.WithIdentity (Some "alice");
                         client.WithProviderInfo "bob" []]
                        (client.defaults unreachable clock0
                           "https://router.example"))) <> 0)
    by (vm_compute; discriminate).
  exact (proj1 (New_checks_identity_against_peer_ID unreachable clock0
                  "https://router.example"
                  [client.WithIdentity (Some "alice");
                   client.WithProviderInfo "bob" []])
           "alice" eq_refl Hsz eq_refl).
Defined.

(** ** More runs *)

Lemma two_lines_decode :
  traces.Decodes (iter.Decoder (stream [unknown_line; unknown_line]))
    [envelope "graphsync" other_payload; envelope "graphsync" other_payload]
    (Lines []).
Proof.
  apply (traces.Decodes_cons _ _ (Lines [unknown_line])); [reflexivity|].
  apply (traces.Decodes_cons _ _ (Lines [])); [reflexivity|].
  apply traces.Decodes_nil.
Defined.

Lemma one_of_two_lines_decodes :
  traces.Decodes (iter.Decoder (stream [unknown_line; unknown_line]))
    [envelope "graphsync" other_payload] (Lines [unknown_line]).
Proof.
  apply (traces.Decodes_cons _ _ (Lines [unknown_line])); [reflexivity|].
  apply traces.Decodes_nil.
Defined.

(** X3: a run. *)
Lemma stream_of_two_lines_run :
  fst (traces.pulls (T := UnknownProviderRecord) 3 (stream [unknown_line; unknown_line]))
  = [(envelope "graphsync" other_payload, true, None);
     (envelope "graphsync" other_payload, true, None);
     (zero, false, None)]
  /\ released (stream [unknown_line; unknown_line])
       (snd (traces.pulls (T := UnknownProviderRecord) 3 (stream [unknown_line; unknown_line]))).
Proof.
  destruct (stream_yields_in_order_then_closes
              (stream [unknown_line; unknown_line])
              [envelope "graphsync" other_payload;
               envelope "graphsync" other_payload]
              (Lines []) zero EOF (Lines [])
              eq_refl eq_refl two_lines_decode eq_refl eq_refl)
    as [E [Hr _]].
  exact (conj E Hr).
Defined.

(** X5: a run. *)
Lemma cancel_after_first_line_run :
  fst (iter.JSONIter_Next (T := UnknownProviderRecord)
         (runs.cancelled Canceled
            (snd (traces.pulls (T := UnknownProviderRecord) 1 (stream [unknown_line; unknown_line])))))
  = (zero, true, Some Canceled)
  /\ iter.Decoder
       (snd (iter.JSONIter_Next (T := UnknownProviderRecord)
               (runs.cancelled Canceled
                  (snd (traces.pulls (T := UnknownProviderRecord) 1
                          (stream [unknown_line; unknown_line]))))))
     = Lines [unknown_line].
Proof.
  destruct (cancellation_preempts_unread_values
              (stream [unknown_line; unknown_line])
              [envelope "graphsync" other_payload] (Lines [unknown_line])
              Canceled eq_refl eq_refl one_of_two_lines_decodes)
    as [E [_ Hd]].
  exact (conj E Hd).
Defined.

(** X4: a run. *)
Lemma done_stream_is_frozen_run :
  iter.Decoder
    (runs.run (T := UnknownProviderRecord) [CallNext; Cancel Canceled; CallNext]
       (iter.close (stream [unknown_line])))
  = Lines [unknown_line]
  /\ io.closes
       (iter.Reader
          (runs.run (T := UnknownProviderRecord)
             [CallNext; Cancel Canceled; CallNext]
             (iter.close (stream [unknown_line])))) = 1.
Proof.
  destruct (done_iterator_never_reads_or_closes (T := UnknownProviderRecord)
              (iter.close (stream [unknown_line])) eq_refl
              [CallNext; Cancel Canceled; CallNext]) as [Hd [Hr _]].
  split; [exact Hd|]. rewrite Hr. reflexivity.
Defined.

(** X6: a run. *)
Lemma broken_line_error_run :
  errors.Is_chain (Wrap "json iterator: " syntax_error) syntax_error = true.
Proof.
  assert (E : iter.JSONIter_Next (T := UnknownProviderRecord)
                (stream [Broken syntax_error])
              = ((zero, true, Some (Wrap "json iterator: " syntax_error)),
                 snd (iter.JSONIter_Next (T := UnknownProviderRecord)
                        (stream [Broken syntax_error]))))
    by (vm_compute; reflexivity).
  destruct (stream_error_provenance (stream [Broken syntax_error])
              zero true (Wrap "json iterator: " syntax_error) _ E)
    as [[Hc _]|[_ [e [_ [He [Hi _]]]]]].
  - discriminate Hc.
  - injection He as He. subst e. exact Hi.
Defined.

(** X8: a run. *)
Lemma unknown_lines_pass_through_run :
  fst (traces.pulls 2
         {| ndjson.r_iter := stream [unknown_line; unknown_line] |})
  = [(Some (UnknownResponse (envelope "graphsync" other_payload)), true, None);
     (Some (UnknownResponse (envelope "graphsync" other_payload)), true, None)].
Proof.
  assert (Hne : Schema (envelope "graphsync" other_payload) <> SchemaBitswap)
    by (vm_compute; discriminate).
  assert (Hall : Forall (fun v => Schema v <> SchemaBitswap)
                   [envelope "graphsync" other_payload;
                    envelope "graphsync" other_payload])
    by (repeat constructor; exact Hne).
  pose proof (proj1 (unknown_schemas_pass_through_in_order
                       [envelope "graphsync" other_payload;
                        envelope "graphsync" other_payload]
                       (stream [unknown_line; unknown_line]) (Lines [])
                       eq_refl eq_refl two_lines_decode Hall))
    as E.
  exact (f_equal fst E).
Defined.

(** X10: a run. *)
Lemma streaming_body_left_open_run :
  traces.count traces.is_BodyClose
    (snd (client.FindProviders streaming context.Background key)) = 0.
Proof.
  exact (proj1 (proj1
           (FindProviders_closes_body_unless_streaming (D := Wire)
              streaming context.Background key get_request
              {| http.StatusCode := 200;
                 http.Header_Get := fun _ => "application/x-ndjson";
                 http.Body := {| io.content := Lines [unknown_line];
                                 io.closed := 0 |} |}
              eq_refl eq_refl)
           eq_refl "application/x-ndjson" eq_refl eq_refl)).
Defined.

(** X11: a run. *)
Lemma batch_answer_run :
  exists m,
    client.FindProviders batch context.Background key
    = ((Some (client.OfSlice (iter.FromSlice one_provider)), None),
       [client.Do get_request; client.BodyClose; client.Recorded m]) /\
    client.m_length m = Some 1.
Proof.
  assert (Hreq : NewRequestWithContext context.Background http.MethodGet
                   (client.baseURL batch ++ ProvidePath ++ key)%string None
                 = inl get_request) by reflexivity.
  assert (Hdec : Decode
                   (NewDecoder
                      (io.Closer {| io.content := ReadDocument one_provider;
                                    io.closed := 0 |}))
                   (zero : ReadProvidersResponse)
                 = ({| Providers := one_provider |}, None, Lines []))
    by reflexivity.
  destruct (FindProviders_batch_returns_iterator_with_error (D := Wire)
              batch context.Background key get_request
              {| http.StatusCode := 200;
                 http.Header_Get := fun _ => "application/json";
                 http.Body := {| io.content := ReadDocument one_provider;
                                 io.closed := 0 |} |}
              "application/json" {| Providers := one_provider |} None (Lines [])
              Hreq eq_refl eq_refl eq_refl eq_refl Hdec)
    as [m [E [Hl _]]].
  exists m. exact (conj E Hl).
Defined.

(** X13: a run. *)
Lemma streaming_under_cancelled_context_run :
  exists p,
    fst (fst (client.FindProviders streaming cancelled_ctx key))
    = Some (client.OfNDJSON p) /\
    fst (ndjson.readProvidersResponseIter_Next p)
    = (None, false, Some Canceled).
Proof.
  assert (Hreq : NewRequestWithContext cancelled_ctx http.MethodGet
                   (client.baseURL streaming ++ ProvidePath ++ key)%string None
                 = inl {| http.Method := "GET";
                          http.URL :=
                            ("https://router.example/routing/v1/providers/"
                             ++ key)%string;
                          http.Host := "router";
                          http.ReqBody := None;
                          http.ReqCtx := cancelled_ctx |})
    by (vm_compute; reflexivity).
  destruct (FindProviders_stream_observes_callers_context (D := Wire)
              streaming cancelled_ctx key _
              {| http.StatusCode := 200;
                 http.Header_Get := fun _ => "application/x-ndjson";
                 http.Body := {| io.content := Lines [unknown_line];
                                 io.closed := 0 |} |}
              "application/x-ndjson" Canceled
              Hreq eq_refl eq_refl eq_refl eq_refl eq_refl)
    as [p [E [Hn _]]].
  exists p. exact (conj E Hn).
Defined.

(** X14: a run. *)
Lemma refused_signature_run :
  fst (client.ProvideBitswap (H0 := refusing_signer) (D := Wire)
         unsigned_client context.Background [key] day)
  = (0%Z, Some signing_error)
  /\ traces.count traces.is_Do
       (snd (client.ProvideBitswap (H0 := refusing_signer) (D := Wire)
               unsigned_client context.Background [key] day)) = 0.
Proof.
  assert (Hsz : client.Size (client.peerID unsigned_client) <> 0)
    by (vm_compute; discriminate).
  pose proof (ProvideBitswap_signing_failure_sends_nothing
                (H0 := refusing_signer) (D := Wire)
                unsigned_client context.Background [key] day "alice"
                _ signing_error eq_refl Hsz eq_refl) as E.
  rewrite E. split; reflexivity.
Defined.

(** X17: a run. *)
Lemma provide_at_refusing_router_run :
  client.provideSignedBitswapRecord refusing_router context.Background zero
  = ((0%Z, Some (External "HTTP error with StatusCode=500")),
     [client.Do post_request; client.BodyClose]).
Proof.
  assert (Hst : 500%Z <> http.StatusOK) by (vm_compute; discriminate).
  exact (proj2
           (provide_transport_and_status_failures (D := Wire)
              refusing_router context.Background zero good_payload post_request
              eq_refl eq_refl)
           {| http.StatusCode := 500;
              http.Header_Get := fun _ => "text/plain";
              http.Body := {| io.content := Unparsable; io.closed := 0 |} |}
           eq_refl Hst).
Defined.

(** X21: a run. *)
Lemma exported_options_leave_no_hook_run :
  client.afterSignCallback (client_of unreachable alice) = None.
Proof.
  assert (Hall : Forall traces.exported alice)
    by (repeat constructor).
  exact (proj1 (hook_is_not_reachable_through_exported_options (D := Wire)
                  unreachable clock0 "https://router.example" alice
                  context.Background [key] day Hall)).
Defined.

(** X22: a run. *)
Lemma address_only_client_cannot_provide_run :
  client.ProvideBitswap
    (client_of unreachable [client.WithProviderInfo "alice" []])
    context.Background [key] day
  = ((0%Z, Some (errors.New
                   "cannot provide Bitswap records without an identity")),
     []).
Proof.
  assert (Hall : Forall (fun o : client.option_ (R := Wire) =>
                           forall c, client.identity (o c) = client.identity c)
                   [client.WithProviderInfo "alice" []])
    by (repeat constructor).
  exact (proj2 (proj2
           (client_built_without_identity_cannot_provide (D := Wire)
              unreachable clock0 "https://router.example"
              [client.WithProviderInfo "alice" []]
              context.Background [key] day) Hall)).
Defined.
